(** * The microservice upgrade / rollback engine of anax

    A shallow embedding of [microservice/microservice.go]: the eligibility
    check [MicroserviceReadyForUpgrade], the stall detector
    [MicroserviceNeedsRollback], the version resolver
    [GetUpgradeMicroserviceDef], the rollback locator
    [GetRollbackMicroserviceDef] and the policy compiler
    [GenMicroservicePolicy], followed by the properties proved about them.

    Conventions.  A Go [uint64] is a [Z] whose wrap-around is written out
    ([uint64.sub]); a Go [string] is a [string] of bytes; a [[]byte] is a
    [list byte]; a [map[string]interface{}] is a [gmap string iface]; a nil
    slice and an empty slice are both the empty list (the source only ever
    tests [x != nil && len(x) > 0]).  A collaborator returning [(T, error)]
    is a function into [error + T]; the functions of the file return both
    results, [(nil, nil)] being [(None, None)]; a function that can panic
    returns an [outcome].  The store behind [*bolt.DB] is passed along
    explicitly ([persistence.Store]). *)

From Stdlib Require Import ZArith Lia List String Ascii DecimalString.
From Stdlib.Strings Require Import Byte.
From stdpp Require Import base option list gmap strings.

Open Scope Z_scope.

(** ** Go values *)

(** A Go [error] value: one made by a collaborator, or one wrapped by
    [fmt.Errorf] around its cause. *)
Inductive error : Type :=
| errors_New (msg : string)
| fmt_Errorf (format : string) (cause : error).

(** What a call does when it may panic. *)
Inductive outcome (A : Type) : Type :=
| Returns (a : A)
| Panics (reason : string).

Arguments Returns {A} a.
Arguments Panics {A} reason.

(** A value of type [interface{}] as [encoding/json] produces it. *)
#[local] Unset Elimination Schemes.
Inductive iface : Type :=
| iface_nil
| iface_bool (b : bool)
| iface_number (literal : string)
| iface_string (s : string)
| iface_slice (elems : list iface)
| iface_map (fields : list (string * iface)).
#[local] Set Elimination Schemes.

Module uint64.

Definition modulus : Z := 2 ^ 64.

Definition in_range (z : Z) : Prop := 0 <= z < modulus.

(** [a - b] on [uint64] operands. *)
Definition sub (a b : Z) : Z := (a - b) mod modulus.

End uint64.

Module strings.

(** [strings.Compare]: ordinal, byte by byte. *)
Definition Compare (a b : string) : Z :=
  match String.compare a b with
  | Lt => -1
  | Eq => 0
  | Gt => 1
  end.

Section Split.

(** [explode]: what [strings.Split] gives for an empty separator, the
    UTF-8 sequences of the string. *)
Variable explode : string -> list string.

(** The pieces of [s] between the occurrences of a non-empty [sep], found
    from the left and not overlapping: [piece] is the piece read so far,
    [skip] the number of bytes of an occurrence still to pass. *)
Fixpoint split_loop (sep : string) (skip : nat) (piece s : string)
  : list string :=
  match s with
  | EmptyString => [piece]
  | String c rest =>
      match skip with
      | S skip' => split_loop sep skip' piece rest
      | O =>
          if String.prefix sep s
          then piece :: split_loop sep (String.length sep - 1) "" rest
          else split_loop sep 0 (piece ++ String c "")%string rest
      end
  end.

(** [strings.Split]. *)
Definition Split (s sep : string) : list string :=
  match sep with
  | EmptyString => explode s
  | _ => split_loop sep 0 "" s
  end.

End Split.

End strings.

Module bytes.

(** [bytes.Equal]. *)
Fixpoint Equal (a b : list byte) : bool :=
  match a, b with
  | [], [] => true
  | x :: a', y :: b' => Byte.eqb x y && Equal a' b'
  | _, _ => false
  end.

End bytes.

Module strconv.

(** [strconv.FormatInt(i, 10)]. *)
Definition FormatInt (i : Z) : string := NilZero.string_of_int (Z.to_int i).

End strconv.

(** ** Package [exchange]: the registry's view of a definition *)

Module exchange.

Record HardwareMatch := {
  USBDeviceIds : string;
  Devfiles : string
}.

Record UserInput := {
  UI_Name : string;
  UI_Label : string;
  UI_Type : string;
  UI_DefaultValue : string
}.

Record WorkloadDeployment := {
  Deployment : string;
  DeploymentSignature : string;
  Torrent : string
}.

(** The registry-side definition, with the fields that
    [ConvertToPersistent] reads. *)
Record MicroserviceDefinition := {
  Owner : string;
  Label : string;
  Description : string;
  SpecRef : string;
  Version : string;
  Arch : string;
  Sharable : string;
  DownloadURL : string;
  MatchHardware : HardwareMatch;
  UserInputs : list UserInput;
  Workloads : list WorkloadDeployment;
  LastUpdated : string
}.

(** Modelled from the spec: the constants [MS_SHARING_MODE_*] of package
    [exchange], whose declaration is not part of the file; the spec gives
    the three sharing modes as exclusive, single and multiple. *)
Definition MS_SHARING_MODE_EXCLUSIVE : string := "exclusive".
Definition MS_SHARING_MODE_SINGLE : string := "single".
Definition MS_SHARING_MODE_MULTIPLE : string := "multiple".

(** A microservice registered for a node, with the field the source reads;
    [MS_rest] stands for its other fields. *)
Record Microservice := {
  Url : string;
  MS_rest : string
}.

(** The node as the registry holds it, with the field the source reads. *)
Record Device := {
  Device_rest : string;
  RegisteredMicroservices : list Microservice
}.

(** The body of a PUT of the node, with the field the source assigns. *)
Record PutDeviceRequest := {
  PDR_Token : string;
  PDR_Name : string;
  PDR_RegisteredMicroservices : list Microservice
}.

(** What one call of [exchange.InvokeExchange] reports: an error, a
    transport error, or the answer decoded into [resp] (the devices of a
    GET; the answer to a PUT is only logged). *)
Inductive reply : Type :=
| Fatal (err : error)
| Transport (tpErr : error)
| Answer (devices : gmap string Device).

(** A call of [exchange.InvokeExchange]. *)
Record request := {
  method : string;
  url : string;
  user : string;
  pw : string;
  params : option PutDeviceRequest
}.

(** The registry as the node meets it: the replies it is going to give,
    in order, the requests sent so far, and the seconds spent in
    [time.Sleep]. *)
Record Net := {
  script : list reply;
  sent : list request;
  slept : Z
}.

End exchange.

(** ** Package [policy]: the types a policy is generated from *)

Module policy.

(** [policy.Meter], with the fields the compiler fills in. *)
Record Meter := {
  Tokens : Z;
  PerTimeUnit : string;
  NotificationIntervalS : Z
}.

(** The zero value of [Meter]. *)
Definition Meter_zero : Meter :=
  {| Tokens := 0; PerTimeUnit := ""; NotificationIntervalS := 0 |}.

(** [policy.RequiredProperty] is a [map[string]interface{}]. *)
Definition RequiredProperty : Type := gmap string iface.

(** [policy.APISpecification], with the fields the source compares. *)
Record APISpecification := {
  SpecRef : string;
  Org : string;
  Version : string
}.

End policy.

(** ** Package [persistence]: the node's records and its store *)

Module persistence.

Record HardwareMatch := {
  USBDeviceIds : string;
  Devfiles : string
}.

Definition NewHardwareMatch (usbdeviceids devfiles : string) : HardwareMatch :=
  {| USBDeviceIds := usbdeviceids; Devfiles := devfiles |}.

Record UserInput := {
  UI_Name : string;
  UI_Label : string;
  UI_Type : string;
  UI_DefaultValue : string
}.

Definition NewUserInput (name label stype default : string) : UserInput :=
  {| UI_Name := name; UI_Label := label; UI_Type := stype;
     UI_DefaultValue := default |}.

Record WorkloadDeployment := {
  Deployment : string;
  DeploymentSignature : string;
  Torrent : string
}.

Definition NewWorkloadDeployment (deployment signature torrent : string)
  : WorkloadDeployment :=
  {| Deployment := deployment; DeploymentSignature := signature;
     Torrent := torrent |}.

(** The node's record of a definition, with the fields that
    [microservice.go] reads or writes. *)
Record MicroserviceDefinition := {
  Id : string;
  Owner : string;
  Label : string;
  Description : string;
  SpecRef : string;
  Org : string;
  Version : string;
  Arch : string;
  Sharable : string;
  DownloadURL : string;
  MatchHardware : HardwareMatch;
  UserInputs : list UserInput;
  Workloads : list WorkloadDeployment;
  LastUpdated : string;
  Archived : bool;
  Name : string;
  UpgradeVersionRange : string;
  AutoUpgrade : bool;
  ActiveUpgrade : bool;
  UpgradeStartTime : Z;
  UpgradeMsUnregisteredTime : Z;
  UpgradeAgreementsClearedTime : Z;
  UpgradeExecutionStartTime : Z;
  UpgradeMsReregisteredTime : Z;
  UpgradeFailedTime : Z;
  UngradeFailureReason : Z;
  UngradeFailureDescription : string;
  UpgradeNewMsId : string;
  MetadataHash : list byte
}.

(** The node's record of an instance, with the fields the eligibility
    check and the instance filters read. *)
Record MicroserviceInstance := {
  MI_SpecRef : string;
  MI_Version : string;
  InstanceId : string;
  MI_Archived : bool;
  MicroserviceDefId : string;
  AssociatedAgreements : list string
}.

Record AttributeMeta := {
  SensorUrls : list string
}.

(** The attribute kinds the policy compiler switches on; every other kind
    is [OtherAttributes]. *)
Inductive Attribute : Type :=
| ComputeAttributes (Meta : AttributeMeta) (CPUs RAM : Z)
| ArchitectureAttributes (Meta : AttributeMeta) (Architecture : string)
| HAAttributes (Meta : AttributeMeta) (Partners : list string)
| MeteringAttributes (Meta : AttributeMeta) (Tokens : Z)
    (PerTimeUnit : string) (NotificationIntervalS : Z)
| CounterPartyPropertyAttributes (Meta : AttributeMeta)
    (Expression : policy.RequiredProperty)
| PropertyAttributes (Meta : AttributeMeta) (Mappings : gmap string iface)
| AgreementProtocolAttributes (Meta : AttributeMeta) (Protocols : iface)
| OtherAttributes (Meta : AttributeMeta) (kind : string).

Definition GetMeta (attr : Attribute) : AttributeMeta :=
  match attr with
  | ComputeAttributes m _ _ => m
  | ArchitectureAttributes m _ => m
  | HAAttributes m _ => m
  | MeteringAttributes m _ _ _ => m
  | CounterPartyPropertyAttributes m _ => m
  | PropertyAttributes m _ => m
  | AgreementProtocolAttributes m _ => m
  | OtherAttributes m _ => m
  end.

(** The node's record of its registration, with the field the source
    reads. *)
Record ExchangeDevice := {
  ED_Name : string
}.

(** Modelled from the spec: the record store behind [*bolt.DB], which
    package [persistence] wraps and whose code is not part of the file.
    The spec describes it as keyed storage of definitions, instances and
    attributes read through [find(filters) -> list], whose failure is a
    [StoreError] surfaced to the caller.  The store holds its records in
    storage order; [read_error] is the failure, if any, with which every
    read transaction of this store ends. *)
Record DB := {
  read_error : option error;
  microservice_definitions : list MicroserviceDefinition;
  microservice_instances : list MicroserviceInstance;
  service_attributes : list Attribute
}.

(** Code working on the store: from a store to a result and the store
    afterwards. *)
Definition Store (A : Type) : Type := DB -> A * DB.

Definition ret {A : Type} (a : A) : Store A := fun db => (a, db).

Definition bind {A B : Type} (m : Store A) (k : A -> Store B) : Store B :=
  fun db => let (a, db') := m db in k a db'.

Definition MSFilter : Type := MicroserviceDefinition -> bool.
Definition MIFilter : Type := MicroserviceInstance -> bool.

(** Modelled from the spec: the filter "by url+version". *)
Definition UrlVersionMSFilter (spec_url version : string) : MSFilter :=
  fun e => String.eqb (SpecRef e) spec_url && String.eqb (Version e) version.

(** Modelled from the spec: the filter "by url". *)
Definition UrlMSFilter (spec_url : string) : MSFilter :=
  fun e => String.eqb (SpecRef e) spec_url.

(** Modelled from the spec: the filter "archived". *)
Definition ArchivedMSFilter : MSFilter := fun e => Archived e.

(** Modelled from the spec: the filter "all instances of (ref, version)". *)
Definition AllInstancesMIFilter (spec_url version : string) : MIFilter :=
  fun e => String.eqb (MI_SpecRef e) spec_url
           && String.eqb (MI_Version e) version.

(** Modelled from the spec: the filter "unarchived". *)
Definition UnarchivedMIFilter : MIFilter := fun e => negb (MI_Archived e).

(** Modelled from the spec: [find(filters) -> list] on the definitions,
    the records that pass every filter, in storage order; the store is
    read, never written. *)
Definition FindMicroserviceDefs (filters : list MSFilter)
  : Store (error + list MicroserviceDefinition) :=
  fun db =>
    match read_error db with
    | Some err => (inl err, db)
    | None =>
        (inr (List.filter (fun e => forallb (fun f => f e) filters)
                (microservice_definitions db)), db)
    end.

(** Modelled from the spec: [find(filters) -> list] on the instances. *)
Definition FindMicroserviceInstances (filters : list MIFilter)
  : Store (error + list MicroserviceInstance) :=
  fun db =>
    match read_error db with
    | Some err => (inl err, db)
    | None =>
        (inr (List.filter (fun e => forallb (fun f => f e) filters)
                (microservice_instances db)), db)
    end.

(** Modelled from the spec: an attribute applies to a service when it
    carries no scoping service-URL list, or one that names the service. *)
Definition applicable (serviceUrl : string) (attr : Attribute) : bool :=
  match SensorUrls (GetMeta attr) with
  | [] => true
  | urls => existsb (String.eqb serviceUrl) urls
  end.

(** Modelled from the spec: [findApplicable(specRef) -> list<Attribute>],
    each attribute carrying an optional scoping service-URL list. *)
Definition FindApplicableAttributes (serviceUrl : string)
  : Store (error + list Attribute) :=
  fun db =>
    match read_error db with
    | Some err => (inl err, db)
    | None =>
        (inr (List.filter (applicable serviceUrl) (service_attributes db)), db)
    end.

End persistence.

Notation "x <- m ;; k" := (persistence.bind m (fun x => k))
  (at level 100, m at next level, right associativity, only parsing).

(** ** Package [microservice] *)

Module microservice.

Import persistence.

(** *** [ConvertToPersistent] *)

Section Conversion.

(** [strings.ToLower]; [json.Marshal] of a registry-side definition; and
    [sha3.Sum256]. *)
Variable ToLower : string -> string.
Variable json_Marshal : exchange.MicroserviceDefinition -> error + list byte.
Variable sha3_Sum256 : list byte -> list byte.

Definition ConvertToPersistent (ems : exchange.MicroserviceDefinition)
    (org : string) : error + MicroserviceDefinition :=
  let sharable := ToLower (exchange.Sharable ems) in
  let sharable :=
    if negb (String.eqb sharable exchange.MS_SHARING_MODE_EXCLUSIVE)
       && negb (String.eqb sharable exchange.MS_SHARING_MODE_SINGLE)
       && negb (String.eqb sharable exchange.MS_SHARING_MODE_MULTIPLE)
    then exchange.MS_SHARING_MODE_EXCLUSIVE
    else sharable in
  let hwmatch :=
    NewHardwareMatch (exchange.USBDeviceIds (exchange.MatchHardware ems))
      (exchange.Devfiles (exchange.MatchHardware ems)) in
  let user_inputs :=
    List.map (fun ui => NewUserInput (exchange.UI_Name ui)
                          (exchange.UI_Label ui) (exchange.UI_Type ui)
                          (exchange.UI_DefaultValue ui))
      (exchange.UserInputs ems) in
  let workloads :=
    List.map (fun wl => NewWorkloadDeployment (exchange.Deployment wl)
                          (exchange.DeploymentSignature wl)
                          (exchange.Torrent wl))
      (exchange.Workloads ems) in
  match json_Marshal ems with
  | inl err =>
      inl (fmt_Errorf "Failed to marshal microservice metadata" err)
  | inr serial =>
      inr {| Id := "";
             Owner := exchange.Owner ems;
             Label := exchange.Label ems;
             Description := exchange.Description ems;
             SpecRef := exchange.SpecRef ems;
             Org := org;
             Version := exchange.Version ems;
             Arch := exchange.Arch ems;
             Sharable := sharable;
             DownloadURL := exchange.DownloadURL ems;
             MatchHardware := hwmatch;
             UserInputs := user_inputs;
             Workloads := workloads;
             LastUpdated := exchange.LastUpdated ems;
             Archived := false;
             Name := "";
             UpgradeVersionRange := "0.0.0";
             AutoUpgrade := false;
             ActiveUpgrade := true;
             UpgradeStartTime := 0;
             UpgradeMsUnregisteredTime := 0;
             UpgradeAgreementsClearedTime := 0;
             UpgradeExecutionStartTime := 0;
             UpgradeMsReregisteredTime := 0;
             UpgradeFailedTime := 0;
             UngradeFailureReason := 0;
             UngradeFailureDescription := "";
             UpgradeNewMsId := "";
             MetadataHash := sha3_Sum256 serial |}
  end.

End Conversion.

(** *** [MicroserviceReadyForUpgrade] *)

(** The loop over the instances found: an instance of this very
    definition that holds an agreement ends the check. *)
Definition holds_agreement (msdef : MicroserviceDefinition)
    (msi : MicroserviceInstance) : bool :=
  String.eqb (MicroserviceDefId msi) (Id msdef)
  && (0 <? Z.of_nat (length (AssociatedAgreements msi))).

Definition MicroserviceReadyForUpgrade (msdef : MicroserviceDefinition)
  : Store bool :=
  if Archived msdef then ret false
  else if negb (AutoUpgrade msdef) then ret false
  else if negb (UpgradeStartTime msdef =? 0)
          && (UpgradeMsReregisteredTime msdef =? 0)
          && (UpgradeFailedTime msdef =? 0) then ret false
  else if negb (ActiveUpgrade msdef) then
    found <- FindMicroserviceInstances
               [AllInstancesMIFilter (SpecRef msdef) (Version msdef);
                UnarchivedMIFilter] ;;
    match found with
    | inl _ => ret false
    | inr ms_insts =>
        if existsb (holds_agreement msdef) ms_insts then ret false
        else ret true
    end
  else ret true.

(** *** [MicroserviceNeedsRollback] *)

Section Rollback.

(** [config.MICROSERVICE_EXEC_TIMEOUT], a constant of package [config],
    in seconds. *)
Variable MICROSERVICE_EXEC_TIMEOUT : Z.

(** [now] is what [uint64(time.Now().Unix())] gives when the function
    reads the clock. *)
Definition MicroserviceNeedsRollback (now : Z)
    (msdef : MicroserviceDefinition) : bool :=
  if UpgradeStartTime msdef =? 0 then false
  else if UpgradeExecutionStartTime msdef =? 0 then
    if uint64.sub now (UpgradeStartTime msdef) >? MICROSERVICE_EXEC_TIMEOUT
    then true
    else false
  else false.

End Rollback.

(** *** [GetUpgradeMicroserviceDef] *)

(** "copy some attributes from the old over to the new". *)
Definition copy_attributes (msdef new_msdef : MicroserviceDefinition)
  : MicroserviceDefinition :=
  {| Id := Id new_msdef;
     Owner := Owner new_msdef;
     Label := Label new_msdef;
     Description := Description new_msdef;
     SpecRef := SpecRef new_msdef;
     Org := Org new_msdef;
     Version := Version new_msdef;
     Arch := Arch new_msdef;
     Sharable := Sharable new_msdef;
     DownloadURL := DownloadURL new_msdef;
     MatchHardware := MatchHardware new_msdef;
     UserInputs := UserInputs new_msdef;
     Workloads := Workloads new_msdef;
     LastUpdated := LastUpdated new_msdef;
     Archived := Archived new_msdef;
     Name := Name msdef;
     UpgradeVersionRange := UpgradeVersionRange msdef;
     AutoUpgrade := AutoUpgrade msdef;
     ActiveUpgrade := ActiveUpgrade msdef;
     UpgradeStartTime := UpgradeStartTime new_msdef;
     UpgradeMsUnregisteredTime := UpgradeMsUnregisteredTime new_msdef;
     UpgradeAgreementsClearedTime := UpgradeAgreementsClearedTime new_msdef;
     UpgradeExecutionStartTime := UpgradeExecutionStartTime new_msdef;
     UpgradeMsReregisteredTime := UpgradeMsReregisteredTime new_msdef;
     UpgradeFailedTime := UpgradeFailedTime new_msdef;
     UngradeFailureReason := UngradeFailureReason new_msdef;
     UngradeFailureDescription := UngradeFailureDescription new_msdef;
     UpgradeNewMsId := UpgradeNewMsId new_msdef;
     MetadataHash := MetadataHash new_msdef |}.

(** The loop over the archived definitions found: the upgrade that was
    chosen before, with the metadata the registry offers now. *)
Definition failed_before (msdef new_msdef ms : MicroserviceDefinition)
  : bool :=
  String.eqb (UpgradeNewMsId msdef) (Id ms)
  && bytes.Equal (MetadataHash ms) (MetadataHash new_msdef).

Section Upgrade.

Variable ToLower : string -> string.
Variable json_Marshal : exchange.MicroserviceDefinition -> error + list byte.
Variable sha3_Sum256 : list byte -> list byte.

(** [policy.Version_Expression_Factory] and [Get_expression]. *)
Variable Version_Expression : Type.
Variable Version_Expression_Factory : string -> error + Version_Expression.
Variable Get_expression : Version_Expression -> string.

(** [exchange.GetMicroservice]: the registry's answer to a query for
    the highest version of (url, org, arch) within a version range. *)
Variable HTTPClientFactory : Type.
Variable GetMicroservice :
  HTTPClientFactory -> string -> string -> string -> string ->
  string -> string -> string -> error + exchange.MicroserviceDefinition.

Definition GetUpgradeMicroserviceDef (msdef : MicroserviceDefinition)
    (httpClientFactory : HTTPClientFactory)
    (exchURL deviceId deviceToken : string)
  : Store (option MicroserviceDefinition * option error) :=
  match Version_Expression_Factory (UpgradeVersionRange msdef) with
  | inl err =>
      ret (None, Some (fmt_Errorf "Unable to convert to a version expression" err))
  | inr vExp =>
      match GetMicroservice httpClientFactory (SpecRef msdef) (Org msdef)
              (Get_expression vExp) (Arch msdef) exchURL deviceId
              deviceToken with
      | inl err =>
          ret (None, Some (fmt_Errorf "Filed to find a highest version for microservice" err))
      | inr e_msdef =>
          match ConvertToPersistent ToLower json_Marshal sha3_Sum256
                  e_msdef (Org msdef) with
          | inl err =>
              ret (None, Some (fmt_Errorf "Failed to convert microservice metadata to persistent.MicroserviceDefinition" err))
          | inr new_msdef =>
              if strings.Compare (exchange.Version e_msdef) (Version msdef) <? 0
              then ret (None, None)
              else if (strings.Compare (exchange.Version e_msdef)
                         (Version msdef) =? 0)
                      && bytes.Equal (MetadataHash msdef)
                           (MetadataHash new_msdef)
              then ret (None, None)
              else if negb (String.eqb (UpgradeNewMsId msdef) "") then
                found <- FindMicroserviceDefs
                           [UrlVersionMSFilter (SpecRef new_msdef)
                              (Version new_msdef);
                            ArchivedMSFilter] ;;
                match found with
                | inl err =>
                    ret (None, Some (fmt_Errorf "Failed to get archived microservice definition" err))
                | inr msdefs =>
                    if existsb (failed_before msdef new_msdef) msdefs
                    then ret (None, None)
                    else ret (Some (copy_attributes msdef new_msdef), None)
                end
              else ret (Some (copy_attributes msdef new_msdef), None)
          end
      end
  end.

End Upgrade.

(** *** [GetRollbackMicroserviceDef] *)

Definition GetRollbackMicroserviceDef (msdef : MicroserviceDefinition)
  : Store (option MicroserviceDefinition * option error) :=
  found <- FindMicroserviceDefs
             [UrlMSFilter (SpecRef msdef); ArchivedMSFilter] ;;
  match found with
  | inl err =>
      ret (None, Some (fmt_Errorf "Filed to get archived microservice definition" err))
  | inr msdefs =>
      match List.find (fun ms => String.eqb (UpgradeNewMsId ms) (Id msdef))
              msdefs with
      | Some ms => ret (Some ms, None)
      | None => ret (None, None)
      end
  end.

(** *** [GenMicroservicePolicy] *)

(** The variables of [GenMicroservicePolicy] that the closure
    [handleServiceAttributes] assigns to; both of its calls work on the
    same ones. *)
Record variables := {
  policyArch : string;
  haPartner : list string;
  meterPolicy : policy.Meter;
  counterPartyProperties : policy.RequiredProperty;
  properties : gmap string iface;
  serviceAgreementProtocols : list iface;
  props : gmap string iface
}.

(** Their values when the closure is first called: zero values, and the
    empty map made for [props]. *)
Definition declared : variables :=
  {| policyArch := "";
     haPartner := [];
     meterPolicy := policy.Meter_zero;
     counterPartyProperties := ∅;
     properties := ∅;
     serviceAgreementProtocols := [];
     props := ∅ |}.

Definition set_policyArch (v : string) (vars : variables) : variables :=
  {| policyArch := v; haPartner := haPartner vars;
     meterPolicy := meterPolicy vars;
     counterPartyProperties := counterPartyProperties vars;
     properties := properties vars;
     serviceAgreementProtocols := serviceAgreementProtocols vars;
     props := props vars |}.

Definition set_haPartner (v : list string) (vars : variables) : variables :=
  {| policyArch := policyArch vars; haPartner := v;
     meterPolicy := meterPolicy vars;
     counterPartyProperties := counterPartyProperties vars;
     properties := properties vars;
     serviceAgreementProtocols := serviceAgreementProtocols vars;
     props := props vars |}.

Definition set_meterPolicy (v : policy.Meter) (vars : variables) : variables :=
  {| policyArch := policyArch vars; haPartner := haPartner vars;
     meterPolicy := v;
     counterPartyProperties := counterPartyProperties vars;
     properties := properties vars;
     serviceAgreementProtocols := serviceAgreementProtocols vars;
     props := props vars |}.

Definition set_counterPartyProperties (v : policy.RequiredProperty)
    (vars : variables) : variables :=
  {| policyArch := policyArch vars; haPartner := haPartner vars;
     meterPolicy := meterPolicy vars;
     counterPartyProperties := v;
     properties := properties vars;
     serviceAgreementProtocols := serviceAgreementProtocols vars;
     props := props vars |}.

Definition set_properties (v : gmap string iface) (vars : variables)
  : variables :=
  {| policyArch := policyArch vars; haPartner := haPartner vars;
     meterPolicy := meterPolicy vars;
     counterPartyProperties := counterPartyProperties vars;
     properties := v;
     serviceAgreementProtocols := serviceAgreementProtocols vars;
     props := props vars |}.

Definition set_serviceAgreementProtocols (v : list iface) (vars : variables)
  : variables :=
  {| policyArch := policyArch vars; haPartner := haPartner vars;
     meterPolicy := meterPolicy vars;
     counterPartyProperties := counterPartyProperties vars;
     properties := properties vars;
     serviceAgreementProtocols := v;
     props := props vars |}.

Definition set_props (v : gmap string iface) (vars : variables) : variables :=
  {| policyArch := policyArch vars; haPartner := haPartner vars;
     meterPolicy := meterPolicy vars;
     counterPartyProperties := counterPartyProperties vars;
     properties := properties vars;
     serviceAgreementProtocols := serviceAgreementProtocols vars;
     props := v |}.

(** One pass of the type switch.  The assertion [agpl.([]interface{})]
    has no second result, so it panics on any other dynamic type. *)
Definition handle_attribute (vars : variables) (attr : Attribute)
  : outcome variables :=
  match attr with
  | ComputeAttributes _ cpus ram =>
      Returns
        (set_props
           (<["ram" := iface_string (strconv.FormatInt ram)]>
              (<["cpus" := iface_string (strconv.FormatInt cpus)]>
                 (props vars)))
           vars)
  | ArchitectureAttributes _ architecture =>
      Returns (set_policyArch architecture vars)
  | HAAttributes _ partners =>
      Returns (set_haPartner partners vars)
  | MeteringAttributes _ tokens perTimeUnit notificationIntervalS =>
      Returns
        (set_meterPolicy
           {| policy.Tokens := tokens;
              policy.PerTimeUnit := perTimeUnit;
              policy.NotificationIntervalS := notificationIntervalS |}
           vars)
  | CounterPartyPropertyAttributes _ expression =>
      Returns (set_counterPartyProperties expression vars)
  | PropertyAttributes _ mappings =>
      Returns (set_properties mappings vars)
  | AgreementProtocolAttributes _ agpl =>
      match agpl with
      | iface_slice protocols =>
          Returns (set_serviceAgreementProtocols protocols vars)
      | _ =>
          Panics "interface conversion: interface {} is not []interface {}"
      end
  | OtherAttributes _ _ => Returns vars
  end.

(** The [for _, attr := range attributes] loop. *)
Fixpoint handle_attributes (attributes : list Attribute) (vars : variables)
  : outcome variables :=
  match attributes with
  | [] => Returns vars
  | attr :: rest =>
      match handle_attribute vars attr with
      | Returns vars' => handle_attributes rest vars'
      | Panics reason => Panics reason
      end
  end.

(** "add the PropertyAttributes to props". *)
Definition add_properties (vars : variables) : variables :=
  if 0 <? Z.of_nat (size (properties vars)) then
    set_props
      (map_fold (fun key val acc => <[key := val]> acc) (props vars)
         (properties vars))
      vars
  else vars.

Definition handleServiceAttributes (attributes : list Attribute)
    (vars : variables) : outcome variables :=
  match handle_attributes attributes vars with
  | Returns vars' => Returns (add_properties vars')
  | Panics reason => Panics reason
  end.

(** "device the attributes into 2 groups, common and specific". *)
Fixpoint divide (orig_attributes common_attribs specific_attribs
    : list Attribute) : list Attribute * list Attribute :=
  match orig_attributes with
  | [] => (common_attribs, specific_attribs)
  | attr :: rest =>
      match SensorUrls (GetMeta attr) with
      | [] => divide rest (common_attribs ++ [attr]) specific_attribs
      | _ :: _ => divide rest common_attribs (specific_attribs ++ [attr])
      end
  end.

Definition maxAgreements (msdef : MicroserviceDefinition) : Z :=
  if String.eqb (Sharable msdef) exchange.MS_SHARING_MODE_SINGLE
     || String.eqb (Sharable msdef) exchange.MS_SHARING_MODE_MULTIPLE
  then 2
  else 1.

Section Policy.

(** [policy.AgreementProtocol], [events.Message]. *)
Variable AgreementProtocol : Type.
Variable Message : Type.

(** [policy.ConvertToAgreementProtocolList]. *)
Variable ConvertToAgreementProtocolList :
  list iface -> error + list AgreementProtocol.

(** The thirteen arguments of a call of [policy.GeneratePolicy]. *)
Record GeneratePolicy_call := {
  arg_sensorUrl : string;
  arg_org : string;
  arg_name : string;
  arg_version : string;
  arg_arch : string;
  arg_props : gmap string iface;
  arg_haPartners : list string;
  arg_meterPolicy : policy.Meter;
  arg_counterPartyProperties : policy.RequiredProperty;
  arg_agps : list AgreementProtocol;
  arg_maxAgreements : Z;
  arg_policyPath : string;
  arg_deviceOrg : string
}.

(** [policy.GeneratePolicy]: the message that announces the new policy,
    or an error. *)
Variable GeneratePolicy : GeneratePolicy_call -> error + Message.

(** From the attributes found to the call of [policy.GeneratePolicy]:
    what the function does between reading the attribute store and
    generating the policy. *)
Definition compile (msdef : MicroserviceDefinition)
    (policyPath deviceOrg : string) (orig_attributes : list Attribute)
  : outcome (error + GeneratePolicy_call) :=
  let (common_attribs, specific_attribs) := divide orig_attributes [] [] in
  match handleServiceAttributes common_attribs declared with
  | Panics reason => Panics reason
  | Returns vars =>
      match handleServiceAttributes specific_attribs vars with
      | Panics reason => Panics reason
      | Returns vars =>
          match ConvertToAgreementProtocolList
                  (serviceAgreementProtocols vars) with
          | inl err =>
              Returns (inl (fmt_Errorf "Error converting agreement protocol list attribute to agreement protocol list" err))
          | inr agps =>
              Returns
                (inr {| arg_sensorUrl := SpecRef msdef;
                        arg_org := Org msdef;
                        arg_name := Name msdef;
                        arg_version := Version msdef;
                        arg_arch := policyArch vars;
                        arg_props := props vars;
                        arg_haPartners := haPartner vars;
                        arg_meterPolicy := meterPolicy vars;
                        arg_counterPartyProperties :=
                          counterPartyProperties vars;
                        arg_agps := agps;
                        arg_maxAgreements := maxAgreements msdef;
                        arg_policyPath := policyPath;
                        arg_deviceOrg := deviceOrg |})
          end
      end
  end.

(** [e] is the content of the event channel; a message sent is added at
    its end.  The result is what the function returns, or its panic,
    with the channel afterwards. *)
Definition GenMicroservicePolicy (msdef : MicroserviceDefinition)
    (policyPath : string) (e : list Message) (deviceOrg : string)
  : Store (outcome (option error) * list Message) :=
  found <- FindApplicableAttributes (SpecRef msdef) ;;
  match found with
  | inl err =>
      ret (Returns (Some (fmt_Errorf "Failed to get the microservice attributes from db" err)), e)
  | inr orig_attributes =>
      match compile msdef policyPath deviceOrg orig_attributes with
      | Panics reason => ret (Panics reason, e)
      | Returns (inl err) => ret (Returns (Some err), e)
      | Returns (inr call) =>
          match GeneratePolicy call with
          | inl err =>
              ret (Returns (Some (fmt_Errorf "Failed to generate policy" err)), e)
          | inr msg => ret (Returns None, e ++ [msg])
          end
      end
  end.

End Policy.

(** *** [DecodeReasonCode] *)

Definition MS_UNREG_EXCH_FAILED : Z := 200.
Definition MS_CLEAR_OLD_AGS_FAILED : Z := 201.
Definition MS_EXEC_FAILED : Z := 202.
Definition MS_REREG_EXCH_FAILED : Z := 203.
Definition MS_IMAGE_LOAD_FAILED : Z := 204.
Definition MS_DELETED_BY_UPGRADE_PROCESS : Z := 205.
Definition MS_DELETED_FOR_AG_ENDED : Z := 206.

Definition codeMeanings : gmap Z string :=
  list_to_map
    [(MS_UNREG_EXCH_FAILED, "Unregistering microservice on exchange failed");
     (MS_CLEAR_OLD_AGS_FAILED, "Clearing old agreements failed");
     (MS_EXEC_FAILED, "Execution failed");
     (MS_REREG_EXCH_FAILED, "Reregistering microservice on exchange failed");
     (MS_IMAGE_LOAD_FAILED, "Image loading failed");
     (MS_DELETED_BY_UPGRADE_PROCESS, "Deleted by upgrading process");
     (MS_DELETED_FOR_AG_ENDED, "Deleted for agreement ended")].

Definition DecodeReasonCode (code : Z) : string :=
  match codeMeanings !! code with
  | None => "unknown reason code, device might be downlevel"
  | Some reasonString => reasonString
  end.

(** *** [RemoveMicroservicePolicy] and [RestoreMicroservicePolicyFile] *)

Section PolicyFiles.

Variable explode : string -> list string.

(** The policy files on disk, with [os.Rename] and
    [policy.RenamePolicyFile] (path, org, file name, suffix). *)
Variable FS : Type.
Variable os_Rename : string -> string -> FS -> option error * FS.
Variable RenamePolicyFile :
  string -> string -> string -> string -> FS -> option error * FS.

(** [*policy.PolicyManager] with [GetAllPolicies] and [DeletePolicy], and
    [policy.Policy] with its [APISpecs]. *)
Variable PolicyManager : Type.
Variable Policy : Type.
Variable APISpecs : Policy -> list policy.APISpecification.
Variable GetAllPolicies : PolicyManager -> string -> list Policy.
Variable DeletePolicy : PolicyManager -> string -> Policy -> PolicyManager.

(** "get the policy file name": [a_tmp[len(a_tmp)-1]] of the split of
    the url at "/". *)
Definition policy_file_name (spec_ref : string) : outcome string :=
  match last (strings.Split explode spec_ref "/") with
  | Some fileName => Returns fileName
  | None => Panics "index out of range [-1]"
  end.

(** The first API spec of a policy is the microservice it is for. *)
Definition policy_for (spec_ref org version : string)
    (apiSpec : policy.APISpecification) : bool :=
  String.eqb (policy.SpecRef apiSpec) spec_ref
  && String.eqb (policy.Org apiSpec) org
  && String.eqb (policy.Version apiSpec) version.

(** The loop over the policies of the organisation. *)
Fixpoint remove_policy (spec_ref org version msdef_id policy_path : string)
    (policies : list Policy) (pm : PolicyManager) (fs : FS)
  : outcome (option error) * (PolicyManager * FS) :=
  match policies with
  | [] => (Returns None, (pm, fs))
  | pol :: rest =>
      match APISpecs pol with
      | [] => (Panics "index out of range [0] with length 0", (pm, fs))
      | apiSpec :: _ =>
          if policy_for spec_ref org version apiSpec then
            let pm' := DeletePolicy pm org pol in
            match policy_file_name spec_ref with
            | Panics reason => (Panics reason, (pm', fs))
            | Returns fileName =>
                match RenamePolicyFile policy_path org fileName
                        ("." ++ msdef_id)%string fs with
                | (Some err, fs') => (Returns (Some err), (pm', fs'))
                | (None, fs') => (Returns None, (pm', fs'))
                end
            end
          else
            remove_policy spec_ref org version msdef_id policy_path rest pm fs
      end
  end.

Definition RemoveMicroservicePolicy
    (spec_ref org version msdef_id policy_path : string)
    (pm : PolicyManager) (fs : FS)
  : outcome (option error) * (PolicyManager * FS) :=
  remove_policy spec_ref org version msdef_id policy_path
    (GetAllPolicies pm org) pm fs.

Definition RestoreMicroservicePolicyFile
    (spec_ref version msdef_id policy_path : string)
    (pm : PolicyManager) (fs : FS)
  : outcome (string * option error) * FS :=
  match policy_file_name spec_ref with
  | Panics reason => (Panics reason, fs)
  | Returns fileName =>
      let fullFileName := (policy_path ++ fileName ++ ".policy")%string in
      match os_Rename (fullFileName ++ "." ++ msdef_id)%string fullFileName
              fs with
      | (Some err, fs') =>
          (Returns ("", Some (fmt_Errorf "Failed to rename the policy file" err)),
           fs')
      | (None, fs') => (Returns (fullFileName, None), fs')
      end
  end.

End PolicyFiles.

(** *** [getExchangeDevice] and [UnregisterMicroserviceExchange] *)

Section Registry.

(** [exchange.GetOrg], [exchange.GetId] and [exchange.CreateDevicePut]. *)
Variable GetOrg : string -> string.
Variable GetId : string -> string.
Variable CreateDevicePut : string -> string -> exchange.PutDeviceRequest.

(** [persistence.FindExchangeDevice], a read of the store. *)
Variable FindExchangeDevice : DB -> error + option ExchangeDevice.

Definition targetURL (exchangeUrl deviceId : string) : string :=
  (exchangeUrl ++ "orgs/" ++ GetOrg deviceId ++ "/nodes/"
   ++ GetId deviceId)%string.

(** The [for] loop of [getExchangeDevice]: every round is one call of
    [exchange.InvokeExchange], which sends [req] and takes the next reply of
    the registry.  [None] is a loop that has not returned by the end of the
    replies. *)
Fixpoint get_device (req : exchange.request) (deviceId : string)
    (script : list exchange.reply) (sent : list exchange.request)
    (slept : Z) : option (error + exchange.Device) * exchange.Net :=
  match script with
  | [] =>
      (None,
       {| exchange.script := []; exchange.sent := sent ++ [req];
          exchange.slept := slept |})
  | rep :: rest =>
      match rep with
      | exchange.Fatal err =>
          (Some (inl err),
           {| exchange.script := rest; exchange.sent := sent ++ [req];
              exchange.slept := slept |})
      | exchange.Transport _ =>
          get_device req deviceId rest (sent ++ [req]) (slept + 10)
      | exchange.Answer devs =>
          (Some match devs !! deviceId with
                | None => inl (errors_New "device not in GET response as expected")
                | Some dev => inr dev
                end,
           {| exchange.script := rest; exchange.sent := sent ++ [req];
              exchange.slept := slept |})
      end
  end.

Definition getExchangeDevice (deviceId deviceToken exchangeUrl : string)
    (net : exchange.Net) : option (error + exchange.Device) * exchange.Net :=
  get_device
    {| exchange.method := "GET";
       exchange.url := targetURL exchangeUrl deviceId;
       exchange.user := deviceId; exchange.pw := deviceToken;
       exchange.params := None |}
    deviceId (exchange.script net) (exchange.sent net) (exchange.slept net).

(** The [for] loop of [UnregisterMicroserviceExchange], around the PUT. *)
Fixpoint put_device (req : exchange.request)
    (script : list exchange.reply) (sent : list exchange.request)
    (slept : Z) : option (option error) * exchange.Net :=
  match script with
  | [] =>
      (None,
       {| exchange.script := []; exchange.sent := sent ++ [req];
          exchange.slept := slept |})
  | rep :: rest =>
      match rep with
      | exchange.Fatal err =>
          (Some (Some err),
           {| exchange.script := rest; exchange.sent := sent ++ [req];
              exchange.slept := slept |})
      | exchange.Transport _ =>
          put_device req rest (sent ++ [req]) (slept + 10)
      | exchange.Answer _ =>
          (Some None,
           {| exchange.script := rest; exchange.sent := sent ++ [req];
              exchange.slept := slept |})
      end
  end.

Definition UnregisterMicroserviceExchange
    (spec_ref exchange_url device_id device_token : string) (db : DB)
    (net : exchange.Net) : option (option error) * exchange.Net :=
  match FindExchangeDevice db with
  | inl err =>
      (Some (Some (fmt_Errorf "Received error getting device name" err)), net)
  | inr None =>
      (Some (Some (errors_New "Could not get device name because no device was registered yet.")),
       net)
  | inr (Some dev) =>
      let deviceName := ED_Name dev in
      match getExchangeDevice device_id device_token exchange_url net with
      | (None, net') => (None, net')
      | (Some (inl err), net') =>
          (Some (Some (fmt_Errorf "Error getting device from the exchange" err)),
           net')
      | (Some (inr eDevice), net') =>
          match exchange.RegisteredMicroservices eDevice with
          | [] => (Some None, net')
          | _ :: _ =>
              let ms_put :=
                List.filter
                  (fun ms => negb (String.eqb (exchange.Url ms) spec_ref))
                  (exchange.RegisteredMicroservices eDevice) in
              let pdr := CreateDevicePut device_token deviceName in
              let pdr :=
                {| exchange.PDR_Token := exchange.PDR_Token pdr;
                   exchange.PDR_Name := exchange.PDR_Name pdr;
                   exchange.PDR_RegisteredMicroservices := ms_put |} in
              put_device
                {| exchange.method := "PUT";
                   exchange.url := targetURL exchange_url device_id;
                   exchange.user := device_id; exchange.pw := device_token;
                   exchange.params := Some pdr |}
                (exchange.script net') (exchange.sent net')
                (exchange.slept net')
          end
      end
  end.

End Registry.

End microservice.

(** ** Sample records *)

Module scenario.

Import persistence.

Definition gps : string := "https://bluehorizon.network/microservices/gps".

(** A definition of the gps microservice; the fields not listed are the
    same in every sample. *)
Definition definition (id version : string) (archived autoUpgrade
    activeUpgrade : bool) (start exec rereg failed : Z) (newMsId : string)
    (hash : list byte) : MicroserviceDefinition :=
  {| Id := id; Owner := "IBM/owner"; Label := "GPS"; Description := "";
     SpecRef := gps; Org := "IBM"; Version := version; Arch := "amd64";
     Sharable := "exclusive"; DownloadURL := "";
     MatchHardware := NewHardwareMatch "" ""; UserInputs := [];
     Workloads := []; LastUpdated := ""; Archived := archived;
     Name := "gps"; UpgradeVersionRange := "[1.0.0,INFINITY)";
     AutoUpgrade := autoUpgrade; ActiveUpgrade := activeUpgrade;
     UpgradeStartTime := start; UpgradeMsUnregisteredTime := 0;
     UpgradeAgreementsClearedTime := 0; UpgradeExecutionStartTime := exec;
     UpgradeMsReregisteredTime := rereg; UpgradeFailedTime := failed;
     UngradeFailureReason := 0; UngradeFailureDescription := "";
     UpgradeNewMsId := newMsId; MetadataHash := hash |}.

(** An upgrade started at 1000 whose execution has not begun. *)
Definition started_at_1000 : MicroserviceDefinition :=
  definition "def1" "1.0.0" false true true 1000 0 0 0 "" [].

(** An upgrade whose start is stamped with the largest [uint64]. *)
Definition started_at_max : MicroserviceDefinition :=
  definition "def1" "1.0.0" false true true (2 ^ 64 - 1) 0 0 0 "" [].

(** An upgrade stamped one hour after the clock value 1000. *)
Definition started_at_4600 : MicroserviceDefinition :=
  definition "def1" "1.0.0" false true true 4600 0 0 0 "" [].

(** A stable definition that upgrades without draining its agreements. *)
Definition inactive_upgrade : MicroserviceDefinition :=
  definition "def1" "1.0.0" false true false 0 0 0 0 "" [].

Definition archived_def : MicroserviceDefinition :=
  definition "def0" "0.9.0" true true true 0 0 0 0 "def1" [].

Definition instance (defId : string) (agreements : list string)
  : MicroserviceInstance :=
  {| MI_SpecRef := gps; MI_Version := "1.0.0"; InstanceId := "gps_1.0.0_i1";
     MI_Archived := false; MicroserviceDefId := defId;
     AssociatedAgreements := agreements |}.

Definition store (defs : list MicroserviceDefinition)
    (insts : list MicroserviceInstance) (attrs : list Attribute) : DB :=
  {| read_error := None; microservice_definitions := defs;
     microservice_instances := insts; service_attributes := attrs |}.

Definition broken_store (defs : list MicroserviceDefinition)
    (insts : list MicroserviceInstance) (attrs : list Attribute) : DB :=
  {| read_error := Some (errors_New "database not open");
     microservice_definitions := defs;
     microservice_instances := insts; service_attributes := attrs |}.

(** Stand-ins for the collaborators of the version resolver: lower case
    for the ASCII letters, a serialization that spells out url and version,
    a digest that keeps it, a factory that accepts every range, and a
    registry that offers one definition of the gps microservice. *)
Definition lower_byte (c : ascii) : ascii :=
  let n := N_of_ascii c in
  if ((65 <=? n) && (n <=? 90))%N then ascii_of_N (n + 32) else c.

Fixpoint lower (s : string) : string :=
  match s with
  | EmptyString => EmptyString
  | String c rest => String (lower_byte c) (lower rest)
  end.

Definition spell (ems : exchange.MicroserviceDefinition) : error + list byte :=
  inr (list_byte_of_string
         (exchange.SpecRef ems ++ " " ++ exchange.Version ems)).

Definition keep (serial : list byte) : list byte := serial.

Definition accept (range : string) : error + string := inr range.

Definition offered (version : string) : exchange.MicroserviceDefinition :=
  {| exchange.Owner := "IBM/owner"; exchange.Label := "GPS";
     exchange.Description := ""; exchange.SpecRef := gps;
     exchange.Version := version; exchange.Arch := "amd64";
     exchange.Sharable := "exclusive"; exchange.DownloadURL := "";
     exchange.MatchHardware :=
       {| exchange.USBDeviceIds := ""; exchange.Devfiles := "" |};
     exchange.UserInputs := []; exchange.Workloads := [];
     exchange.LastUpdated := "" |}.

Definition registry (version : string) (_ : unit)
    (url org range arch exchURL deviceId deviceToken : string)
  : error + exchange.MicroserviceDefinition :=
  inr (offered version).

(** The digest of the offered definition under [spell] and [keep]. *)
Definition digest (version : string) : list byte :=
  list_byte_of_string (gps ++ " " ++ version).

(** The resolver with the stand-ins, the registry offering [version]. *)
Definition resolve (version : string) (msdef : MicroserviceDefinition)
  : Store (option MicroserviceDefinition * option error) :=
  microservice.GetUpgradeMicroserviceDef lower spell keep string accept
    (fun vExp => vExp) unit (registry version) msdef tt
    "https://exchange/v1/" "IBM/node1" "token".

(** Version 1.0.0, installed with another content than the registry now
    offers, never upgraded. *)
Definition installed : MicroserviceDefinition :=
  definition "def1" "1.0.0" false true true 0 0 0 0 "" [].

(** Version 1.0.0, installed with the content the registry still offers. *)
Definition unchanged : MicroserviceDefinition :=
  definition "def1" "1.0.0" false true true 0 0 0 0 "" (digest "1.0.0").

(** Version 1.0.0 whose upgrade to the record "def2" was given up. *)
Definition rolled_back : MicroserviceDefinition :=
  definition "def1" "1.0.0" false true true 0 0 0 0 "def2" [].

(** The archived record "def2" of a version, with the digest of a content. *)
Definition given_up (version content : string) : MicroserviceDefinition :=
  definition "def2" version true true true 0 0 0 0 "" (digest content).

(** The same definition with another sharing mode. *)
Definition shared (mode : string) (msdef : MicroserviceDefinition)
  : MicroserviceDefinition :=
  {| Id := Id msdef; Owner := Owner msdef; Label := Label msdef;
     Description := Description msdef; SpecRef := SpecRef msdef;
     Org := Org msdef; Version := Version msdef; Arch := Arch msdef;
     Sharable := mode; DownloadURL := DownloadURL msdef;
     MatchHardware := MatchHardware msdef; UserInputs := UserInputs msdef;
     Workloads := Workloads msdef; LastUpdated := LastUpdated msdef;
     Archived := Archived msdef; Name := Name msdef;
     UpgradeVersionRange := UpgradeVersionRange msdef;
     AutoUpgrade := AutoUpgrade msdef; ActiveUpgrade := ActiveUpgrade msdef;
     UpgradeStartTime := UpgradeStartTime msdef;
     UpgradeMsUnregisteredTime := UpgradeMsUnregisteredTime msdef;
     UpgradeAgreementsClearedTime := UpgradeAgreementsClearedTime msdef;
     UpgradeExecutionStartTime := UpgradeExecutionStartTime msdef;
     UpgradeMsReregisteredTime := UpgradeMsReregisteredTime msdef;
     UpgradeFailedTime := UpgradeFailedTime msdef;
     UngradeFailureReason := UngradeFailureReason msdef;
     UngradeFailureDescription := UngradeFailureDescription msdef;
     UpgradeNewMsId := UpgradeNewMsId msdef;
     MetadataHash := MetadataHash msdef |}.

(** Stand-ins for the collaborators of the policy compiler: a protocol is
    its name, every element of the list has to be a map with a "name" that
    is a string; the message that announces a policy is its service url. *)
Definition protocol_name (elem : iface) : error + string :=
  match elem with
  | iface_map fields =>
      match List.find (fun field => String.eqb (fst field) "name") fields with
      | Some (_, iface_string name) => inr name
      | _ => inl (errors_New "agreement protocol name is not a string")
      end
  | _ => inl (errors_New "agreement protocol list element is not a map")
  end.

Fixpoint protocol_names (elems : list iface) : error + list string :=
  match elems with
  | [] => inr []
  | elem :: rest =>
      match protocol_name elem, protocol_names rest with
      | inr name, inr names => inr (name :: names)
      | inl err, _ => inl err
      | _, inl err => inl err
      end
  end.

Definition announce (call : microservice.GeneratePolicy_call string)
  : error + string :=
  inr (microservice.arg_sensorUrl string call).

Definition everywhere : AttributeMeta := {| SensorUrls := [] |}.
Definition for_gps : AttributeMeta := {| SensorUrls := [gps] |}.

(** Property attributes: a region for every service, a region and, later
    in the store, a zone for the gps service; and an agreement-protocol
    attribute that holds a string where a list is expected. *)
Definition region_everywhere : Attribute :=
  PropertyAttributes everywhere {[ "region" := iface_string "us" ]}.

Definition region_for_gps : Attribute :=
  PropertyAttributes for_gps {[ "region" := iface_string "eu" ]}.

Definition zone_for_gps : Attribute :=
  PropertyAttributes for_gps {[ "zone" := iface_string "1" ]}.

Definition protocol_as_string : Attribute :=
  AgreementProtocolAttributes everywhere (iface_string "Citizen Scientist").

(** Architecture attributes, a common mapping of "cpus" and a compute
    attribute for the gps service. *)
Definition arch_everywhere : Attribute :=
  ArchitectureAttributes everywhere "amd64".

Definition arch_for_gps : Attribute :=
  ArchitectureAttributes for_gps "arm".

Definition cpus_everywhere : Attribute :=
  PropertyAttributes everywhere {[ "cpus" := iface_string "9" ]}.

Definition compute_for_gps : Attribute :=
  ComputeAttributes for_gps 4 1024.

(** The compilation of a call with the stand-ins. *)
Definition compiled (msdef : MicroserviceDefinition)
    (orig_attributes : list Attribute)
  : outcome (error + microservice.GeneratePolicy_call string) :=
  microservice.compile string protocol_names msdef "/var/horizon/policy.d/"
    "IBM" orig_attributes.

(** The policy compiler with the stand-ins. *)
Definition generate (msdef : MicroserviceDefinition) (e : list string)
  : Store (outcome (option error) * list string) :=
  microservice.GenMicroservicePolicy string string protocol_names announce
    msdef "/var/horizon/policy.d/" e "IBM".

(** What the registry offers, with a sharing mode as the registry spells
    it. *)
Definition offered_as (mode version : string)
  : exchange.MicroserviceDefinition :=
  {| exchange.Owner := "IBM/owner"; exchange.Label := "GPS";
     exchange.Description := ""; exchange.SpecRef := gps;
     exchange.Version := version; exchange.Arch := "amd64";
     exchange.Sharable := mode; exchange.DownloadURL := "";
     exchange.MatchHardware :=
       {| exchange.USBDeviceIds := ""; exchange.Devfiles := "" |};
     exchange.UserInputs := []; exchange.Workloads := [];
     exchange.LastUpdated := "" |}.

(** The conversion with the stand-ins. *)
Definition converted (ems : exchange.MicroserviceDefinition)
  : error + MicroserviceDefinition :=
  microservice.ConvertToPersistent lower spell keep ems "IBM".

(** Stand-ins for the policy manager and the policy files: a policy is a
    name with its API specs, the manager holds the policies of one
    organisation, the files are the paths that exist, and a renaming fails
    when the old path does not exist. *)
Definition no_explode (s : string) : list string := [].

Definition toy_policy : Type := string * list policy.APISpecification.

Definition all_policies (pm : list toy_policy) (org : string)
  : list toy_policy := pm.

Definition delete_policy (pm : list toy_policy) (org : string)
    (pol : toy_policy) : list toy_policy :=
  List.filter (fun p => negb (String.eqb (fst p) (fst pol))) pm.

Definition rename_file (old new : string) (fs : list string)
  : option error * list string :=
  if existsb (String.eqb old) fs
  then (None, new :: List.filter (fun f => negb (String.eqb f old)) fs)
  else (Some (errors_New "no such file or directory"), fs).

Definition rename_policy_file (path org fileName suffix : string)
    (fs : list string) : option error * list string :=
  rename_file (path ++ fileName ++ ".policy")
    (path ++ fileName ++ ".policy" ++ suffix) fs.

Definition spec_for (url version : string) : policy.APISpecification :=
  {| policy.SpecRef := url; policy.Org := "IBM"; policy.Version := version |}.

Definition netspeed_policy : toy_policy :=
  ("netspeed",
   [spec_for "https://bluehorizon.network/microservices/netspeed" "1.0.0"]).

Definition gps_policy : toy_policy := ("gps", [spec_for gps "1.0.0"]).

Definition gps_again : toy_policy := ("gps again", [spec_for gps "1.0.0"]).

Definition empty_policy : toy_policy := ("empty", []).

(** The removal of the policy of gps 1.0.0, definition "def1". *)
Definition removed (pm : list toy_policy) (fs : list string)
  : outcome (option error) * (list toy_policy * list string) :=
  microservice.RemoveMicroservicePolicy no_explode (list string)
    rename_policy_file (list toy_policy) toy_policy snd all_policies
    delete_policy gps "IBM" "1.0.0" "def1" "/policy.d/" pm fs.

(** Stand-ins for the registry: the node "IBM/node1", registered in the
    store as "node1", with the gps and the netspeed microservice at the
    registry, which is out of reach at first. *)
Definition org_of (deviceId : string) : string := "IBM".
Definition id_of (deviceId : string) : string := "node1".

Definition device_put (token name : string) : exchange.PutDeviceRequest :=
  {| exchange.PDR_Token := token; exchange.PDR_Name := name;
     exchange.PDR_RegisteredMicroservices := [] |}.

Definition registered (db : DB) : error + option ExchangeDevice :=
  inr (Some {| ED_Name := "node1" |}).

Definition not_registered (db : DB) : error + option ExchangeDevice :=
  inr None.

Definition gps_ms : exchange.Microservice :=
  {| exchange.Url := gps; exchange.MS_rest := "" |}.

Definition netspeed_ms : exchange.Microservice :=
  {| exchange.Url := "https://bluehorizon.network/microservices/netspeed";
     exchange.MS_rest := "" |}.

Definition node (mss : list exchange.Microservice) : exchange.Device :=
  {| exchange.Device_rest := ""; exchange.RegisteredMicroservices := mss |}.

Definition timeout_reply : exchange.reply :=
  exchange.Transport (errors_New "connection timed out").

Definition answer (mss : list exchange.Microservice) : exchange.reply :=
  exchange.Answer {[ "IBM/node1" := node mss ]}.

Definition network (replies : list exchange.reply) : exchange.Net :=
  {| exchange.script := replies; exchange.sent := []; exchange.slept := 0 |}.

Definition get_request : exchange.request :=
  {| exchange.method := "GET";
     exchange.url := "https://exchange/v1/orgs/IBM/nodes/node1";
     exchange.user := "IBM/node1"; exchange.pw := "token";
     exchange.params := None |}.

Definition put_request (mss : list exchange.Microservice)
  : exchange.request :=
  {| exchange.method := "PUT";
     exchange.url := "https://exchange/v1/orgs/IBM/nodes/node1";
     exchange.user := "IBM/node1"; exchange.pw := "token";
     exchange.params :=
       Some {| exchange.PDR_Token := "token"; exchange.PDR_Name := "node1";
               exchange.PDR_RegisteredMicroservices := mss |} |}.

(** The look-up of the node at the registry, and the unregistration of the
    gps microservice, with the stand-ins. *)
Definition looked_up (net : exchange.Net)
  : option (error + exchange.Device) * exchange.Net :=
  microservice.getExchangeDevice org_of id_of "IBM/node1" "token"
    "https://exchange/v1/" net.

Definition unregistered
    (find : DB -> error + option ExchangeDevice) (net : exchange.Net)
  : option (option error) * exchange.Net :=
  microservice.UnregisterMicroserviceExchange org_of id_of device_put find
    gps "https://exchange/v1/" "IBM/node1" "token" (store [] [] []) net.

End scenario.

(** ** Predicates of the statements *)

Module statement.

Import persistence.

(** "In the middle of a upgrade". *)
Definition mid_upgrade (msdef : MicroserviceDefinition) : Prop :=
  UpgradeStartTime msdef <> 0
  /\ UpgradeMsReregisteredTime msdef = 0
  /\ UpgradeFailedTime msdef = 0.

(** A running instance of the (SpecRef, Version) of [msdef]. *)
Definition running_instance_of (msdef : MicroserviceDefinition) (db : DB)
    (msi : MicroserviceInstance) : Prop :=
  In msi (microservice_instances db)
  /\ MI_SpecRef msi = SpecRef msdef
  /\ MI_Version msi = Version msdef
  /\ MI_Archived msi = false.

Section Candidate.

Variable ToLower : string -> string.
Variable json_Marshal : exchange.MicroserviceDefinition -> error + list byte.
Variable sha3_Sum256 : list byte -> list byte.
Variable Version_Expression : Type.
Variable Version_Expression_Factory : string -> error + Version_Expression.
Variable Get_expression : Version_Expression -> string.
Variable HTTPClientFactory : Type.
Variable GetMicroservice :
  HTTPClientFactory -> string -> string -> string -> string ->
  string -> string -> string -> error + exchange.MicroserviceDefinition.

(** The range of [msdef] parses, the registry offers [e_msdef] for it, and
    [e_msdef] converts to the candidate [new_msdef]. *)
Definition candidate (msdef : MicroserviceDefinition)
    (httpClientFactory : HTTPClientFactory)
    (exchURL deviceId deviceToken : string)
    (e_msdef : exchange.MicroserviceDefinition)
    (new_msdef : MicroserviceDefinition) : Prop :=
  exists vExp,
    Version_Expression_Factory (UpgradeVersionRange msdef) = inr vExp
    /\ GetMicroservice httpClientFactory (SpecRef msdef) (Org msdef)
         (Get_expression vExp) (Arch msdef) exchURL deviceId deviceToken
       = inr e_msdef
    /\ microservice.ConvertToPersistent ToLower json_Marshal sha3_Sum256
         e_msdef (Org msdef)
       = inr new_msdef.

End Candidate.

(** An archived definition sharing the SpecRef of [msdef] whose
    [UpgradeNewMsId] is the [Id] of [msdef]. *)
Definition rollback_target (msdef ms : MicroserviceDefinition) : bool :=
  Archived ms
  && String.eqb (SpecRef ms) (SpecRef msdef)
  && String.eqb (UpgradeNewMsId ms) (Id msdef).

(** A specific attribute carries service urls; a common one does not. *)
Definition scoped (attr : Attribute) : bool :=
  match SensorUrls (GetMeta attr) with
  | [] => false
  | _ :: _ => true
  end.

Definition is_property (attr : Attribute) : bool :=
  match attr with
  | PropertyAttributes _ _ => true
  | _ => false
  end.

Definition is_architecture (attr : Attribute) : bool :=
  match attr with
  | ArchitectureAttributes _ _ => true
  | _ => false
  end.

(** The byte [c] occurs in [s]. *)
Fixpoint contains_byte (c : ascii) (s : string) : bool :=
  match s with
  | EmptyString => false
  | String b rest => Ascii.eqb b c || contains_byte c rest
  end.

(** A reply after which the node sleeps and tries again. *)
Definition is_transport (rep : exchange.reply) : bool :=
  match rep with
  | exchange.Transport _ => true
  | _ => false
  end.

(** A reason code that has a description. *)
Definition known_code (code : Z) : Prop := 200 <= code <= 206.

Section Passed.

Variable Policy : Type.
Variable APISpecs : Policy -> list policy.APISpecification.

(** A policy that the removal passes by: it has API specs, and the first
    of them is for something else than the microservice. *)
Definition passed (spec_ref org version : string) (pol : Policy) : Prop :=
  exists apiSpec rest,
    APISpecs pol = apiSpec :: rest
    /\ microservice.policy_for spec_ref org version apiSpec = false.

End Passed.

(** An attribute of a kind that the type switch has a case for. *)
Definition handled (attr : Attribute) : bool :=
  match attr with
  | OtherAttributes _ _ => false
  | _ => true
  end.

End statement.

(** * Properties *)

Import persistence microservice statement.

(** ** The stall detector *)

Lemma uint64_sub_no_wrap (a b : Z) :
  0 <= b <= a -> a < uint64.modulus -> uint64.sub a b = a - b.
Proof.
  intros Hb Ha. unfold uint64.sub. apply Z.mod_small. lia.
Qed.

Lemma uint64_sub_wraps (a b : Z) :
  0 <= a < b -> b < uint64.modulus ->
  uint64.sub a b = uint64.modulus - (b - a).
Proof.
  intros Ha Hb. unfold uint64.sub.
  replace (a - b) with ((uint64.modulus - (b - a)) + (-1) * uint64.modulus)
    by ring.
  rewrite Z.mod_add by (unfold uint64.modulus; lia).
  apply Z.mod_small. lia.
Qed.

Lemma MicroserviceNeedsRollback_unfold (timeout now : Z)
    (msdef : MicroserviceDefinition) :
  MicroserviceNeedsRollback timeout now msdef =
  negb (UpgradeStartTime msdef =? 0)
  && (UpgradeExecutionStartTime msdef =? 0)
  && (uint64.sub now (UpgradeStartTime msdef) >? timeout).
Proof.
  unfold MicroserviceNeedsRollback.
  destruct (UpgradeStartTime msdef =? 0); [reflexivity|].
  destruct (UpgradeExecutionStartTime msdef =? 0); [|reflexivity].
  destruct (uint64.sub now (UpgradeStartTime msdef) >? timeout); reflexivity.
Qed.

(** C1: [MicroserviceNeedsRollback] answers true exactly when
    [UpgradeStartTime] is not 0, [UpgradeExecutionStartTime] is 0 and
    [now - UpgradeStartTime], the [uint64] subtraction of the source, is
    strictly greater than the execution timeout; where that difference
    equals the timeout, it answers false. *)
Theorem MicroserviceNeedsRollback_iff (timeout now : Z)
    (msdef : MicroserviceDefinition) :
  (MicroserviceNeedsRollback timeout now msdef = true <->
   UpgradeStartTime msdef <> 0
   /\ UpgradeExecutionStartTime msdef = 0
   /\ uint64.sub now (UpgradeStartTime msdef) > timeout)
  /\ (uint64.sub now (UpgradeStartTime msdef) = timeout ->
      MicroserviceNeedsRollback timeout now msdef = false).
Proof.
  rewrite MicroserviceNeedsRollback_unfold. split.
  - rewrite !andb_true_iff, negb_true_iff, Z.eqb_neq, Z.eqb_eq, Z.gtb_gt.
    tauto.
  - intros ->. rewrite Z.gtb_ltb, Z.ltb_irrefl, andb_false_r. reflexivity.
Qed.

Lemma MicroserviceNeedsRollback_iff_witness :
  (MicroserviceNeedsRollback 300 1301 scenario.started_at_1000 = true)
  /\ MicroserviceNeedsRollback 300 1300 scenario.started_at_1000 = false.
Proof.
  split.
  - apply (proj1 (MicroserviceNeedsRollback_iff 300 1301
                    scenario.started_at_1000)).
    repeat split; try discriminate; reflexivity.
  - apply (proj2 (MicroserviceNeedsRollback_iff 300 1300
                    scenario.started_at_1000)).
    reflexivity.
Defined.

(** Without wrap-around, that is for a start no later than the clock, the
    difference is the elapsed time. *)
Lemma MicroserviceNeedsRollback_elapsed (timeout now : Z)
    (msdef : MicroserviceDefinition) :
  0 <= UpgradeStartTime msdef <= now -> now < uint64.modulus ->
  (MicroserviceNeedsRollback timeout now msdef = true <->
   UpgradeStartTime msdef <> 0
   /\ UpgradeExecutionStartTime msdef = 0
   /\ now - UpgradeStartTime msdef > timeout).
Proof.
  intros Hs Hn. rewrite MicroserviceNeedsRollback_unfold.
  rewrite uint64_sub_no_wrap by assumption.
  rewrite !andb_true_iff, negb_true_iff, Z.eqb_neq, Z.eqb_eq, Z.gtb_gt.
  tauto.
Qed.

(** C10, as the source has it: with a start stamped later than the clock,
    the [uint64] difference wraps to [2^64 - (UpgradeStartTime - now)], and
    [MicroserviceNeedsRollback] answers true exactly when that value is
    greater than the timeout; it does so whenever the clock value is at
    least the timeout. *)
Theorem MicroserviceNeedsRollback_future_start (timeout now : Z)
    (msdef : MicroserviceDefinition) :
  uint64.in_range now ->
  uint64.in_range (UpgradeStartTime msdef) ->
  UpgradeStartTime msdef <> 0 ->
  UpgradeExecutionStartTime msdef = 0 ->
  now < UpgradeStartTime msdef ->
  (MicroserviceNeedsRollback timeout now msdef = true <->
   uint64.modulus - (UpgradeStartTime msdef - now) > timeout)
  /\ (timeout <= now -> MicroserviceNeedsRollback timeout now msdef = true).
Proof.
  intros Hnow Hstart Hnz Hexec Hlt.
  unfold uint64.in_range in *.
  rewrite MicroserviceNeedsRollback_unfold, Hexec.
  rewrite uint64_sub_wraps by lia.
  apply Z.eqb_neq in Hnz. rewrite Hnz. cbn [negb andb Z.eqb].
  split.
  - rewrite Z.gtb_gt. reflexivity.
  - intros Hle. apply Z.gtb_gt. lia.
Qed.

Lemma MicroserviceNeedsRollback_future_start_witness :
  MicroserviceNeedsRollback 300 1000 scenario.started_at_4600 = true.
Proof.
  apply (proj2 (MicroserviceNeedsRollback_future_start 300 1000
                  scenario.started_at_4600
                  ltac:(unfold uint64.in_range, uint64.modulus; lia)
                  ltac:(unfold uint64.in_range, uint64.modulus; simpl; lia)
                  ltac:(discriminate) eq_refl eq_refl)).
  discriminate.
Defined.

(** C10, as stated, fails: at clock value 0 a start stamped [2^64 - 1] is
    in the future, the difference wraps to 1, and a timeout of 300 seconds
    is not exceeded. *)
Lemma MicroserviceNeedsRollback_future_start_counterexample :
  UpgradeStartTime scenario.started_at_max <> 0
  /\ UpgradeExecutionStartTime scenario.started_at_max = 0
  /\ uint64.in_range (UpgradeStartTime scenario.started_at_max)
  /\ 0 < UpgradeStartTime scenario.started_at_max
  /\ uint64.sub 0 (UpgradeStartTime scenario.started_at_max) = 1
  /\ MicroserviceNeedsRollback 300 0 scenario.started_at_max = false.
Proof.
  unfold uint64.in_range, uint64.modulus.
  repeat split; try discriminate; reflexivity.
Qed.

(** The same happens with every timeout of at least one second. *)
Lemma MicroserviceNeedsRollback_wrap_to_one (timeout : Z) :
  1 <= timeout ->
  MicroserviceNeedsRollback timeout 0 scenario.started_at_max = false.
Proof.
  intros Ht. rewrite MicroserviceNeedsRollback_unfold.
  replace (uint64.sub 0 (UpgradeStartTime scenario.started_at_max)) with 1
    by reflexivity.
  replace (1 >? timeout) with false
    by (symmetry; rewrite Z.gtb_ltb; apply Z.ltb_ge; lia).
  apply andb_false_r.
Qed.

(** ** The eligibility check *)

Lemma mid_upgrade_test (msdef : MicroserviceDefinition) :
  negb (UpgradeStartTime msdef =? 0)
  && (UpgradeMsReregisteredTime msdef =? 0)
  && (UpgradeFailedTime msdef =? 0) = true <-> mid_upgrade msdef.
Proof.
  unfold mid_upgrade.
  rewrite !andb_true_iff, negb_true_iff, Z.eqb_neq, !Z.eqb_eq. tauto.
Qed.

(** C5: an archived definition, one with [AutoUpgrade] off and one in the
    middle of an upgrade are not ready for an upgrade, whatever their other
    fields and the store hold. *)
Theorem MicroserviceReadyForUpgrade_denied (msdef : MicroserviceDefinition)
    (db : DB) :
  Archived msdef = true \/ AutoUpgrade msdef = false \/ mid_upgrade msdef ->
  fst (MicroserviceReadyForUpgrade msdef db) = false.
Proof.
  intros H. unfold MicroserviceReadyForUpgrade.
  destruct (Archived msdef); [reflexivity|].
  destruct (AutoUpgrade msdef); [|reflexivity]. cbn [negb].
  destruct H as [H | [H | H]]; try discriminate.
  apply mid_upgrade_test in H. rewrite H. reflexivity.
Qed.

Lemma MicroserviceReadyForUpgrade_denied_witness :
  fst (MicroserviceReadyForUpgrade scenario.started_at_1000
         (scenario.store [] [] [])) = false.
Proof.
  apply MicroserviceReadyForUpgrade_denied. right. right.
  unfold mid_upgrade. repeat split; try discriminate; reflexivity.
Defined.

Lemma holds_agreement_iff (msdef : MicroserviceDefinition)
    (msi : MicroserviceInstance) :
  holds_agreement msdef msi = true <->
  MicroserviceDefId msi = Id msdef /\ AssociatedAgreements msi <> [].
Proof.
  unfold holds_agreement.
  rewrite andb_true_iff, String.eqb_eq, Z.ltb_lt.
  destruct (AssociatedAgreements msi); cbn [length]; split; intros [? ?];
    split; try assumption; try congruence; lia.
Qed.

Lemma instances_found (msdef : MicroserviceDefinition) (db : DB) :
  read_error db = None ->
  exists ms_insts,
    fst (FindMicroserviceInstances
           [AllInstancesMIFilter (SpecRef msdef) (Version msdef);
            UnarchivedMIFilter] db) = inr ms_insts
    /\ forall msi, In msi ms_insts <-> running_instance_of msdef db msi.
Proof.
  intros Hok. unfold FindMicroserviceInstances. rewrite Hok.
  eexists. split; [reflexivity|].
  intros msi. rewrite filter_In. unfold running_instance_of.
  cbn [forallb]. unfold AllInstancesMIFilter, UnarchivedMIFilter.
  rewrite !andb_true_iff, !String.eqb_eq, negb_true_iff. tauto.
Qed.

(** C3, as the source has it: with [ActiveUpgrade] off, the definition is
    not ready for an upgrade whenever the look-up of the instances fails,
    and whenever a running instance of its (SpecRef, Version) whose
    [MicroserviceDefId] is the [Id] of the definition holds an agreement. *)
Theorem MicroserviceReadyForUpgrade_fail_closed
    (msdef : MicroserviceDefinition) (db : DB) :
  ActiveUpgrade msdef = false ->
  (exists err,
      fst (FindMicroserviceInstances
             [AllInstancesMIFilter (SpecRef msdef) (Version msdef);
              UnarchivedMIFilter] db) = inl err)
  \/ (exists msi,
         running_instance_of msdef db msi
         /\ MicroserviceDefId msi = Id msdef
         /\ AssociatedAgreements msi <> []) ->
  fst (MicroserviceReadyForUpgrade msdef db) = false.
Proof.
  intros Hactive H. unfold MicroserviceReadyForUpgrade.
  destruct (Archived msdef); [reflexivity|].
  destruct (AutoUpgrade msdef); [|reflexivity]. cbn [negb].
  destruct (_ && _ && _); [reflexivity|].
  rewrite Hactive. cbn [negb]. unfold bind.
  destruct (read_error db) as [err|] eqn:Hread.
  - unfold FindMicroserviceInstances. rewrite Hread. reflexivity.
  - destruct (instances_found msdef db Hread) as (ms_insts & Hfind & Hin).
    destruct (FindMicroserviceInstances _ db) as [found db'] eqn:Hrun.
    cbn [fst] in Hfind. subst found.
    destruct H as [[err Herr] | (msi & Hrunning & Hid & Hags)].
    + discriminate Herr.
    + assert (Hex : existsb (holds_agreement msdef) ms_insts = true).
      { apply existsb_exists. exists msi. split.
        - apply Hin, Hrunning.
        - apply holds_agreement_iff. split; assumption. }
      rewrite Hex. reflexivity.
Qed.

Lemma MicroserviceReadyForUpgrade_fail_closed_witness :
  fst (MicroserviceReadyForUpgrade scenario.inactive_upgrade
         (scenario.store [] [scenario.instance "def1" ["agreement1"]] []))
  = false.
Proof.
  apply MicroserviceReadyForUpgrade_fail_closed; [reflexivity|].
  right. exists (scenario.instance "def1" ["agreement1"]).
  unfold running_instance_of. cbn.
  repeat split; try discriminate; try reflexivity. left. reflexivity.
Defined.

(** C3, as stated, fails: a running instance of the same (SpecRef,
    Version) that holds an agreement but belongs to another definition does
    not keep the definition from being ready. *)
Lemma MicroserviceReadyForUpgrade_other_definition_counterexample :
  let msdef := scenario.inactive_upgrade in
  let msi := scenario.instance "def0" ["agreement1"] in
  let db := scenario.store [] [msi] [] in
  ActiveUpgrade msdef = false
  /\ Archived msdef = false
  /\ AutoUpgrade msdef = true
  /\ ~ mid_upgrade msdef
  /\ running_instance_of msdef db msi
  /\ AssociatedAgreements msi <> []
  /\ fst (MicroserviceReadyForUpgrade msdef db) = true.
Proof.
  cbv zeta. unfold running_instance_of, mid_upgrade. cbn.
  repeat split; try discriminate; try reflexivity.
  - intros (H & _). apply H. reflexivity.
  - left. reflexivity.
Qed.

(** The check reads the store and leaves it as it is. *)
Lemma MicroserviceReadyForUpgrade_reads (msdef : MicroserviceDefinition)
    (db : DB) :
  snd (MicroserviceReadyForUpgrade msdef db) = db.
Proof.
  unfold MicroserviceReadyForUpgrade.
  destruct (Archived msdef); [reflexivity|].
  destruct (negb (AutoUpgrade msdef)); [reflexivity|].
  destruct (_ && _ && _); [reflexivity|].
  destruct (negb (ActiveUpgrade msdef)); [|reflexivity].
  unfold bind, FindMicroserviceInstances.
  destruct (read_error db); [reflexivity|].
  destruct (existsb _ _); reflexivity.
Qed.

(** X1: the check answers true exactly for a definition that is not
    archived, has [AutoUpgrade] on and is not in the middle of an upgrade,
    and that either has [ActiveUpgrade] on or, on a store that can be read,
    has no running instance of its own that holds an agreement. *)
Lemma MicroserviceReadyForUpgrade_true_iff (msdef : MicroserviceDefinition)
    (db : DB) :
  fst (MicroserviceReadyForUpgrade msdef db) = true <->
  Archived msdef = false
  /\ AutoUpgrade msdef = true
  /\ ~ mid_upgrade msdef
  /\ (ActiveUpgrade msdef = true
      \/ (read_error db = None
          /\ forall msi, running_instance_of msdef db msi ->
                         MicroserviceDefId msi = Id msdef ->
                         AssociatedAgreements msi = [])).
Proof.
  unfold MicroserviceReadyForUpgrade.
  destruct (Archived msdef); [cbn; intuition discriminate|].
  destruct (AutoUpgrade msdef); [|cbn; intuition discriminate]. cbn [negb].
  destruct (_ && _ && _) eqn:Hmid.
  { apply mid_upgrade_test in Hmid. cbn. intuition discriminate. }
  assert (Hnot : ~ mid_upgrade msdef).
  { intros H. apply mid_upgrade_test in H. congruence. }
  destruct (ActiveUpgrade msdef); [cbn; intuition|]. cbn [negb].
  unfold bind.
  destruct (read_error db) as [err|] eqn:Hread.
  { unfold FindMicroserviceInstances. rewrite Hread. cbn.
    intuition discriminate. }
  destruct (instances_found msdef db Hread) as (ms_insts & Hfind & Hin).
  destruct (FindMicroserviceInstances _ db) as [found db'] eqn:Hrun.
  cbn [fst] in Hfind. subst found.
  destruct (existsb (holds_agreement msdef) ms_insts) eqn:Hex; cbn [fst ret].
  - apply existsb_exists in Hex. destruct Hex as (msi & Hmsi & Hholds).
    apply holds_agreement_iff in Hholds. destruct Hholds as [Hid Hags].
    split; [discriminate|].
    intros (_ & _ & _ & [H | [_ H]]); [discriminate|].
    exfalso. apply Hags. apply H; [apply Hin, Hmsi | exact Hid].
  - split; [|reflexivity]. intros _. repeat split; try assumption.
    right. split; [reflexivity|]. intros msi Hrunning Hid.
    destruct (AssociatedAgreements msi) as [|ag ags] eqn:Hags;
      [reflexivity|].
    exfalso. apply Hin in Hrunning.
    assert (Hc : existsb (holds_agreement msdef) ms_insts = true).
    { apply existsb_exists. exists msi. split; [assumption|].
      apply holds_agreement_iff. split; [assumption|]. rewrite Hags.
      discriminate. }
    congruence.
Qed.

(** ** The version resolver *)

Lemma ascii_compare_refl (c : ascii) : Ascii.compare c c = Eq.
Proof.
  unfold Ascii.compare. apply N.compare_refl.
Qed.

Lemma string_compare_refl (s : string) : String.compare s s = Eq.
Proof.
  induction s as [|c s IH]; cbn; [reflexivity|].
  rewrite ascii_compare_refl. exact IH.
Qed.

Lemma strings_Compare_eq (a b : string) : strings.Compare a b = 0 <-> a = b.
Proof.
  unfold strings.Compare. split.
  - destruct (String.compare a b) eqn:Hc; try discriminate.
    intros _. apply String.compare_eq_iff, Hc.
  - intros ->. rewrite string_compare_refl. reflexivity.
Qed.

Lemma bytes_Equal_eq (a b : list byte) : bytes.Equal a b = true <-> a = b.
Proof.
  revert b. induction a as [|x a IH]; intros [|y b]; cbn;
    try (split; [discriminate | congruence]); [tauto|].
  rewrite andb_true_iff, IH. split.
  - intros [Hxy ->]. apply byte_dec_bl in Hxy. congruence.
  - intros [= -> ->]. split; [apply byte_dec_lb|]; reflexivity.
Qed.

Lemma failed_before_iff (msdef new_msdef ms : MicroserviceDefinition) :
  failed_before msdef new_msdef ms = true <->
  Id ms = UpgradeNewMsId msdef /\ MetadataHash ms = MetadataHash new_msdef.
Proof.
  unfold failed_before.
  rewrite andb_true_iff, String.eqb_eq, bytes_Equal_eq. intuition congruence.
Qed.

Lemma archived_versions_found (url version : string) (db : DB) :
  read_error db = None ->
  FindMicroserviceDefs [UrlVersionMSFilter url version; ArchivedMSFilter] db
  = (inr (List.filter
            (fun e => String.eqb (SpecRef e) url
                      && String.eqb (Version e) version
                      && (Archived e && true))
            (microservice_definitions db)), db).
Proof.
  intros Hok. unfold FindMicroserviceDefs. rewrite Hok. reflexivity.
Qed.

Section VersionResolver.

Variable ToLower : string -> string.
Variable json_Marshal : exchange.MicroserviceDefinition -> error + list byte.
Variable sha3_Sum256 : list byte -> list byte.
Variable Version_Expression : Type.
Variable Version_Expression_Factory : string -> error + Version_Expression.
Variable Get_expression : Version_Expression -> string.
Variable HTTPClientFactory : Type.
Variable GetMicroservice :
  HTTPClientFactory -> string -> string -> string -> string ->
  string -> string -> string -> error + exchange.MicroserviceDefinition.

Variable msdef : MicroserviceDefinition.
Variable httpClientFactory : HTTPClientFactory.
Variables exchURL deviceId deviceToken : string.

Local Abbreviation resolver :=
  (GetUpgradeMicroserviceDef ToLower json_Marshal sha3_Sum256
     Version_Expression
     Version_Expression_Factory Get_expression HTTPClientFactory
     GetMicroservice msdef httpClientFactory exchURL deviceId deviceToken).

(** The resolver never writes to the store. *)
Lemma GetUpgradeMicroserviceDef_reads (db : DB) : snd (resolver db) = db.
Proof.
  unfold GetUpgradeMicroserviceDef.
  repeat match goal with
         | |- context [match ?x with _ => _ end] => destruct x; cbn
         end; try reflexivity;
  unfold bind, FindMicroserviceDefs; destruct (read_error db); cbn;
    try reflexivity;
  match goal with
  | |- context [existsb ?f ?l] => destruct (existsb f l); reflexivity
  end.
Qed.

(** What the resolver returns once a candidate is there. *)
Lemma GetUpgradeMicroserviceDef_candidate
    (e_msdef : exchange.MicroserviceDefinition)
    (new_msdef : MicroserviceDefinition) (db : DB) :
  candidate ToLower json_Marshal sha3_Sum256 Version_Expression
    Version_Expression_Factory Get_expression HTTPClientFactory
    GetMicroservice msdef httpClientFactory exchURL deviceId deviceToken
    e_msdef new_msdef ->
  fst (resolver db) =
  if strings.Compare (exchange.Version e_msdef) (Version msdef) <? 0
  then (None, None)
  else if (strings.Compare (exchange.Version e_msdef) (Version msdef) =? 0)
          && bytes.Equal (MetadataHash msdef) (MetadataHash new_msdef)
  then (None, None)
  else if negb (String.eqb (UpgradeNewMsId msdef) "") then
    match fst (FindMicroserviceDefs
                 [UrlVersionMSFilter (SpecRef new_msdef) (Version new_msdef);
                  ArchivedMSFilter] db) with
    | inl err =>
        (None, Some (fmt_Errorf "Failed to get archived microservice definition" err))
    | inr msdefs =>
        if existsb (failed_before msdef new_msdef) msdefs then (None, None)
        else (Some (copy_attributes msdef new_msdef), None)
    end
  else (Some (copy_attributes msdef new_msdef), None).
Proof.
  intros (vExp & Hfactory & Hget & Hconvert).
  unfold GetUpgradeMicroserviceDef. rewrite Hfactory, Hget, Hconvert.
  destruct (_ <? 0); [reflexivity|].
  destruct (_ && bytes.Equal _ _); [reflexivity|].
  destruct (negb _); [|reflexivity].
  unfold bind.
  destruct (FindMicroserviceDefs _ db) as [[err|msdefs] db']; cbn;
    [reflexivity|].
  destruct (existsb _ msdefs); reflexivity.
Qed.

Lemma GetUpgradeMicroserviceDef_some (db : DB)
    (new : MicroserviceDefinition) (err : option error) :
  fst (resolver db) = (Some new, err) ->
  exists new_msdef, new = copy_attributes msdef new_msdef /\ err = None.
Proof.
  unfold GetUpgradeMicroserviceDef.
  destruct (Version_Expression_Factory _) as [?|vExp]; [discriminate|].
  destruct (GetMicroservice _ _ _ _ _ _ _ _) as [?|e_msdef]; [discriminate|].
  destruct (ConvertToPersistent _ _ _ _ _) as [?|new_msdef]; [discriminate|].
  destruct (_ <? 0); [discriminate|].
  destruct (_ && bytes.Equal _ _); [discriminate|].
  destruct (negb _).
  - unfold bind.
    destruct (FindMicroserviceDefs _ db) as [[?|msdefs] db']; cbn;
      [discriminate|].
    destruct (existsb _ msdefs); cbn; [discriminate|].
    intros [= <- <-]. eauto.
  - cbn. intros [= <- <-]. eauto.
Qed.

(** C2, as the source has it: with a candidate from the registry, the
    resolver returns (nil, nil) when (a) the candidate's version string
    compares less than [def.Version], ordinally; (b) the version strings
    are equal and so are the metadata hashes; (c) [def.UpgradeNewMsId] is
    not empty, the store can be read, and an archived definition with that
    Id, the SpecRef and the Version of the candidate, has the metadata hash
    of the candidate.  When neither (a) nor (b) holds, [def.UpgradeNewMsId]
    is not empty and the look-up of the archived definitions fails, the
    resolver returns no definition and the wrapped error of the look-up. *)
Theorem GetUpgradeMicroserviceDef_no_upgrade
    (e_msdef : exchange.MicroserviceDefinition)
    (new_msdef : MicroserviceDefinition) (db : DB) :
  candidate ToLower json_Marshal sha3_Sum256 Version_Expression
    Version_Expression_Factory Get_expression HTTPClientFactory
    GetMicroservice msdef httpClientFactory exchURL deviceId deviceToken
    e_msdef new_msdef ->
  (strings.Compare (exchange.Version e_msdef) (Version msdef) < 0
   \/ (exchange.Version e_msdef = Version msdef
       /\ MetadataHash new_msdef = MetadataHash msdef)
   \/ (UpgradeNewMsId msdef <> ""
       /\ read_error db = None
       /\ exists ms,
            In ms (microservice_definitions db)
            /\ Archived ms = true
            /\ SpecRef ms = SpecRef new_msdef
            /\ Version ms = Version new_msdef
            /\ Id ms = UpgradeNewMsId msdef
            /\ MetadataHash ms = MetadataHash new_msdef) ->
   fst (resolver db) = (None, None))
  /\ (forall err,
        strings.Compare (exchange.Version e_msdef) (Version msdef) >= 0 ->
        ~ (exchange.Version e_msdef = Version msdef
           /\ MetadataHash new_msdef = MetadataHash msdef) ->
        UpgradeNewMsId msdef <> "" ->
        fst (FindMicroserviceDefs
               [UrlVersionMSFilter (SpecRef new_msdef) (Version new_msdef);
                ArchivedMSFilter] db) = inl err ->
        fst (resolver db)
        = (None,
           Some (fmt_Errorf "Failed to get archived microservice definition"
                   err))).
Proof.
  intros Hcandidate.
  rewrite (GetUpgradeMicroserviceDef_candidate e_msdef new_msdef db Hcandidate).
  split.
  - intros Hcases.
    destruct (_ <? 0) eqn:Hless; [reflexivity|].
    destruct (_ && bytes.Equal _ _) eqn:Hsame; [reflexivity|].
    destruct Hcases as [Ha | [[Hversion Hhash]
                              | (Hid & Hread & ms & Hin & Harch & Hurl & Hv
                                 & Hms & Hh)]].
    + apply Z.ltb_lt in Ha. congruence.
    + apply strings_Compare_eq in Hversion. rewrite Hversion in Hsame.
      symmetry in Hhash. apply bytes_Equal_eq in Hhash.
      rewrite Hhash in Hsame. discriminate.
    + apply String.eqb_neq in Hid. rewrite Hid. cbn [negb].
      rewrite archived_versions_found by assumption. cbn [fst].
      assert (Hex : existsb (failed_before msdef new_msdef)
                      (List.filter
                         (fun e =>
                            String.eqb (SpecRef e) (SpecRef new_msdef)
                            && String.eqb (Version e) (Version new_msdef)
                            && (Archived e && true))
                         (microservice_definitions db)) = true).
      { apply existsb_exists. exists ms. split.
        - apply filter_In. split; [assumption|].
          rewrite Harch, Hurl, Hv, !String.eqb_refl. reflexivity.
        - apply failed_before_iff. split; assumption. }
      rewrite Hex. reflexivity.
  - intros err Hnot_a Hnot_b Hid Hfails.
    assert (Hless : (strings.Compare (exchange.Version e_msdef)
                       (Version msdef) <? 0) = false)
      by (apply Z.ltb_ge; lia).
    rewrite Hless.
    assert (Hsame : (strings.Compare (exchange.Version e_msdef)
                       (Version msdef) =? 0)
                    && bytes.Equal (MetadataHash msdef)
                         (MetadataHash new_msdef) = false).
    { apply not_true_is_false. intros Hboth.
      apply andb_true_iff in Hboth. destruct Hboth as [Hv Hh].
      apply Z.eqb_eq, strings_Compare_eq in Hv.
      apply bytes_Equal_eq in Hh. apply Hnot_b. split; congruence. }
    rewrite Hsame.
    apply String.eqb_neq in Hid. rewrite Hid. cbn [negb].
    rewrite Hfails. reflexivity.
Qed.

(** C6: a candidate that the resolver returns has the [Name],
    [UpgradeVersionRange], [AutoUpgrade] and [ActiveUpgrade] of the old
    definition. *)
Theorem GetUpgradeMicroserviceDef_copies (db : DB)
    (new : MicroserviceDefinition) (err : option error) :
  fst (resolver db) = (Some new, err) ->
  Name new = Name msdef
  /\ UpgradeVersionRange new = UpgradeVersionRange msdef
  /\ AutoUpgrade new = AutoUpgrade msdef
  /\ ActiveUpgrade new = ActiveUpgrade msdef.
Proof.
  intros H. apply GetUpgradeMicroserviceDef_some in H.
  destruct H as (new_msdef & -> & _). repeat split.
Qed.

End VersionResolver.

Lemma GetUpgradeMicroserviceDef_no_upgrade_witness :
  fst (scenario.resolve "2.0.0" scenario.rolled_back
         (scenario.store [scenario.given_up "2.0.0" "2.0.0"] [] []))
  = (None, None)
  /\ fst (scenario.resolve "2.0.0" scenario.rolled_back
            (scenario.broken_store [scenario.given_up "2.0.0" "2.0.0"] [] []))
     = (None,
        Some (fmt_Errorf "Failed to get archived microservice definition"
                (errors_New "database not open"))).
Proof.
  pose proof
    (fun db =>
       GetUpgradeMicroserviceDef_no_upgrade scenario.lower scenario.spell
         scenario.keep string scenario.accept (fun vExp => vExp) unit
         (scenario.registry "2.0.0") scenario.rolled_back tt
         "https://exchange/v1/" "IBM/node1" "token"
         (scenario.offered "2.0.0")
         match scenario.converted (scenario.offered "2.0.0") with
         | inr new_msdef => new_msdef
         | inl _ => scenario.installed
         end db
         (ex_intro _ "[1.0.0,INFINITY)"
            (conj eq_refl (conj eq_refl eq_refl)))) as Hoffered.
  split.
  - apply (proj1 (Hoffered _)).
    right. right. split; [discriminate|]. split; [reflexivity|].
    exists (scenario.given_up "2.0.0" "2.0.0").
    repeat split. left. reflexivity.
  - apply (proj2 (Hoffered _)).
    + discriminate.
    + intros [Hversion _]. discriminate Hversion.
    + discriminate.
    + reflexivity.
Defined.

(** C2 (c), as stated, fails twice.  On a store that cannot be read the
    resolver returns the error of the look-up; and an archived definition
    with that Id and that hash is not looked at when its Version is not the
    one of the candidate, so the resolver returns the candidate. *)
Lemma GetUpgradeMicroserviceDef_no_upgrade_counterexample :
  let msdef := scenario.rolled_back in
  let same := scenario.given_up "2.0.0" "2.0.0" in
  let other := scenario.given_up "1.5.0" "2.0.0" in
  UpgradeNewMsId msdef <> ""
  /\ (Archived same = true /\ Id same = UpgradeNewMsId msdef
      /\ MetadataHash same = scenario.digest "2.0.0"
      /\ fst (scenario.resolve "2.0.0" msdef
                (scenario.broken_store [same] [] []))
         = (None,
            Some (fmt_Errorf "Failed to get archived microservice definition"
                    (errors_New "database not open"))))
  /\ (Archived other = true /\ Id other = UpgradeNewMsId msdef
      /\ MetadataHash other = scenario.digest "2.0.0"
      /\ exists new,
           fst (scenario.resolve "2.0.0" msdef
                  (scenario.store [other] [] []))
           = (Some new, None)
           /\ Version new = "2.0.0"
           /\ MetadataHash new = scenario.digest "2.0.0").
Proof.
  cbv zeta. split; [discriminate|]. split.
  - repeat split.
  - split; [reflexivity|]. split; [reflexivity|]. split; [reflexivity|].
    eexists. split; [reflexivity|]. split; reflexivity.
Qed.

(** The comparison of versions is ordinal: "9" is above "10", and a
    registry that offers "10.0.0" to a node on "9.0.0" is not followed. *)
Lemma strings_Compare_ordinal :
  strings.Compare "9" "10" = 1
  /\ fst (scenario.resolve "10.0.0"
            (scenario.definition "def1" "9.0.0" false true true 0 0 0 0 "" [])
            (scenario.store [] [] [])) = (None, None).
Proof.
  split; reflexivity.
Qed.

(** The registry offers the installed version with the installed content:
    nothing to do. *)
Lemma GetUpgradeMicroserviceDef_unchanged :
  fst (scenario.resolve "1.0.0" scenario.unchanged (scenario.store [] [] []))
  = (None, None).
Proof.
  reflexivity.
Qed.

Lemma GetUpgradeMicroserviceDef_copies_witness :
  exists new,
    fst (scenario.resolve "2.0.0" scenario.installed
           (scenario.store [] [] [])) = (Some new, None)
    /\ Name new = "gps"
    /\ UpgradeVersionRange new = "[1.0.0,INFINITY)"
    /\ AutoUpgrade new = true
    /\ ActiveUpgrade new = true.
Proof.
  eexists. split; [reflexivity|].
  apply (GetUpgradeMicroserviceDef_copies scenario.lower scenario.spell
           scenario.keep
           string scenario.accept (fun vExp => vExp) unit
           (scenario.registry "2.0.0") scenario.installed tt
           "https://exchange/v1/" "IBM/node1" "token"
           (scenario.store [] [] []) _ None eq_refl).
Defined.

(** ** The rollback locator *)

Lemma find_filter {A : Type} (f g : A -> bool) (l : list A) :
  List.find f (List.filter g l)
  = hd_error (List.filter (fun x => g x && f x) l).
Proof.
  induction l as [|x l IH]; [reflexivity|]. cbn.
  destruct (g x); cbn; [|exact IH].
  destruct (f x); [reflexivity | exact IH].
Qed.

(** The head of the matches is the first match in storage order. *)
Lemma first_match {A : Type} (f : A -> bool) (l : list A) (x : A) :
  hd_error (List.filter f l) = Some x <->
  exists pre post,
    l = pre ++ x :: post /\ f x = true /\ forall y, In y pre -> f y = false.
Proof.
  induction l as [|a l IH]; cbn.
  - split; [discriminate|]. intros (pre & post & H & _).
    destruct pre; discriminate.
  - destruct (f a) eqn:Hfa; cbn.
    + split.
      * intros [= ->]. exists [], l. repeat split; [assumption|].
        intros y [].
      * intros (pre & post & Hl & Hfx & Hpre).
        destruct pre as [|b pre]; cbn in Hl.
        -- congruence.
        -- injection Hl as <- _.
           rewrite (Hpre a (or_introl eq_refl)) in Hfa. discriminate.
    + rewrite IH. split.
      * intros (pre & post & -> & Hfx & Hpre).
        exists (a :: pre), post. repeat split; [assumption|].
        intros y [<- | Hy]; [assumption | apply Hpre, Hy].
      * intros (pre & post & Hl & Hfx & Hpre).
        destruct pre as [|b pre]; cbn in Hl.
        -- injection Hl as -> _. congruence.
        -- injection Hl as <- ->. exists pre, post.
           repeat split; [assumption|].
           intros y Hy. apply Hpre. right. exact Hy.
Qed.

Lemma no_match {A : Type} (f : A -> bool) (l : list A) :
  hd_error (List.filter f l) = None <-> forall y, In y l -> f y = false.
Proof.
  induction l as [|a l IH]; cbn.
  - split; [intros _ y [] | reflexivity].
  - destruct (f a) eqn:Hfa; cbn.
    + split; [discriminate|]. intros H.
      rewrite (H a (or_introl eq_refl)) in Hfa. discriminate.
    + rewrite IH. split.
      * intros H y [<- | Hy]; [assumption | apply H, Hy].
      * intros H y Hy. apply H. right. exact Hy.
Qed.

(** C8, as the source has it: when the store can be read, the locator
    returns the first archived definition sharing [def.SpecRef] whose
    [UpgradeNewMsId] is [def.Id], and (nil, nil) when there is none; when
    the store cannot be read it returns the error of the look-up; it leaves
    the store as it is. *)
Theorem GetRollbackMicroserviceDef_first_match
    (msdef : MicroserviceDefinition) (db : DB) :
  (read_error db = None ->
   fst (GetRollbackMicroserviceDef msdef db)
   = (hd_error (List.filter (rollback_target msdef)
                  (microservice_definitions db)), None))
  /\ (forall err, read_error db = Some err ->
      fst (GetRollbackMicroserviceDef msdef db)
      = (None,
         Some (fmt_Errorf "Filed to get archived microservice definition" err)))
  /\ snd (GetRollbackMicroserviceDef msdef db) = db.
Proof.
  unfold GetRollbackMicroserviceDef, bind, FindMicroserviceDefs.
  destruct (read_error db) as [err|].
  - repeat split; [discriminate|]. intros ? [= <-]. reflexivity.
  - rewrite find_filter.
    rewrite (filter_ext _ (rollback_target msdef)).
    + destruct (hd_error _); repeat split; intros; discriminate.
    + intros ms. unfold rollback_target, UrlMSFilter, ArchivedMSFilter.
      cbn [forallb].
      destruct (Archived ms), (String.eqb (SpecRef ms) (SpecRef msdef));
        reflexivity.
Qed.

Lemma GetRollbackMicroserviceDef_first_match_witness :
  fst (GetRollbackMicroserviceDef scenario.started_at_1000
         (scenario.store [scenario.installed; scenario.archived_def] [] []))
  = (Some scenario.archived_def, None).
Proof.
  apply (proj1 (GetRollbackMicroserviceDef_first_match
                  scenario.started_at_1000
                  (scenario.store [scenario.installed; scenario.archived_def]
                     [] []))).
  reflexivity.
Defined.

(** C8, as stated, fails on a store that cannot be read: with a rollback
    target stored, and with none, the locator returns the error of the
    look-up. *)
Lemma GetRollbackMicroserviceDef_first_match_counterexample :
  let msdef := scenario.started_at_1000 in
  (rollback_target msdef scenario.archived_def = true
   /\ fst (GetRollbackMicroserviceDef msdef
             (scenario.broken_store [scenario.archived_def] [] []))
      = (None,
         Some (fmt_Errorf "Filed to get archived microservice definition"
                 (errors_New "database not open"))))
  /\ fst (GetRollbackMicroserviceDef msdef (scenario.broken_store [] [] []))
     = (None,
        Some (fmt_Errorf "Filed to get archived microservice definition"
                (errors_New "database not open"))).
Proof.
  cbv zeta. repeat split.
Qed.

(** ** The policy compiler *)

Lemma divide_filter (orig common specific : list Attribute) :
  divide orig common specific
  = (common ++ List.filter (fun attr => negb (scoped attr)) orig,
     specific ++ List.filter scoped orig).
Proof.
  revert common specific.
  induction orig as [|attr orig IH]; intros common specific;
    cbn [divide List.filter].
  - rewrite !app_nil_r. reflexivity.
  - assert (Hscoped : scoped attr
                      = match SensorUrls (GetMeta attr) with
                        | [] => false
                        | _ :: _ => true
                        end) by reflexivity.
    destruct (SensorUrls (GetMeta attr)); rewrite Hscoped, IH; cbn [negb];
      rewrite <- app_assoc; reflexivity.
Qed.

Lemma handle_attributes_app (l1 l2 : list Attribute) (vars : variables) :
  handle_attributes (l1 ++ l2) vars
  = match handle_attributes l1 vars with
    | Returns vars' => handle_attributes l2 vars'
    | Panics reason => Panics reason
    end.
Proof.
  revert vars. induction l1 as [|attr l1 IH]; intros vars; cbn;
    [reflexivity|].
  destruct (handle_attribute vars attr); [apply IH | reflexivity].
Qed.

(** Attributes of another kind leave [properties] as it is. *)
Lemma handle_attributes_properties (attributes : list Attribute)
    (vars vars' : variables) :
  (forall attr, In attr attributes -> is_property attr = false) ->
  handle_attributes attributes vars = Returns vars' ->
  properties vars' = properties vars.
Proof.
  revert vars. induction attributes as [|attr rest IH]; intros vars Hnone;
    cbn.
  - intros [= <-]. reflexivity.
  - assert (Hattr : is_property attr = false) by (apply Hnone; left; reflexivity).
    assert (Hrest : forall a, In a rest -> is_property a = false)
      by (intros a Ha; apply Hnone; right; exact Ha).
    destruct attr as [m c r|m a|m p|m t u n|m x|m mp|m agpl|m k]; cbn;
      try discriminate Hattr;
      try (intros H; rewrite (IH _ Hrest H); reflexivity).
    destruct agpl; try discriminate.
    intros H. rewrite (IH _ Hrest H). reflexivity.
Qed.

Lemma fold_insert_union (m base : gmap string iface) :
  map_fold (fun key val acc => <[key := val]> acc) base m = m ∪ base.
Proof.
  apply (map_fold_weak_ind (fun r m => r = m ∪ base)).
  - rewrite (left_id_L ∅ (∪)). reflexivity.
  - intros key val m' r _ ->. rewrite insert_union_l. reflexivity.
Qed.

Lemma add_properties_lookup (vars : variables) (key : string) (val : iface) :
  properties vars !! key = Some val ->
  props (add_properties vars) !! key = Some val.
Proof.
  intros Hkey. unfold add_properties.
  destruct (0 <? Z.of_nat (size (properties vars))) eqn:Hsize.
  - cbn. rewrite fold_insert_union. apply lookup_union_Some_l, Hkey.
  - apply Z.ltb_ge in Hsize.
    assert (Hempty : properties vars = ∅) by (apply map_size_empty_iff; lia).
    rewrite Hempty, lookup_empty in Hkey. discriminate.
Qed.

(** A protocol list that is not a slice stops the loop with a panic. *)
Lemma handle_attributes_panics (attributes : list Attribute)
    (meta : AttributeMeta) (agpl : iface) (vars : variables) :
  In (AgreementProtocolAttributes meta agpl) attributes ->
  (forall protocols, agpl <> iface_slice protocols) ->
  exists reason, handle_attributes attributes vars = Panics reason.
Proof.
  intros Hin Hagpl. revert vars.
  induction attributes as [|attr rest IH]; intros vars; [destruct Hin|].
  cbn. destruct Hin as [-> | Hin].
  - cbn. destruct agpl; eauto. exfalso. eapply Hagpl. reflexivity.
  - destruct (handle_attribute vars attr); eauto.
Qed.

Section PolicyCompiler.

Variable AgreementProtocol : Type.
Variable Message : Type.
Variable ConvertToAgreementProtocolList :
  list iface -> error + list AgreementProtocol.
Variable GeneratePolicy :
  GeneratePolicy_call AgreementProtocol -> error + Message.

Variable msdef : MicroserviceDefinition.
Variables policyPath deviceOrg : string.

Local Abbreviation compiler :=
  (compile AgreementProtocol ConvertToAgreementProtocolList msdef policyPath
     deviceOrg).

Local Abbreviation generator :=
  (GenMicroservicePolicy AgreementProtocol Message
     ConvertToAgreementProtocolList GeneratePolicy msdef policyPath).

(** The call that is compiled: both groups are handled, the common one
    first, and the protocol list converts. *)
Lemma compile_returns (orig : list Attribute)
    (call : GeneratePolicy_call AgreementProtocol) :
  compiler orig = Returns (inr call) ->
  exists vars1 vars2,
    handle_attributes (List.filter (fun attr => negb (scoped attr)) orig)
      declared = Returns vars1
    /\ handle_attributes (List.filter scoped orig) (add_properties vars1)
       = Returns vars2
    /\ arg_props AgreementProtocol call = props (add_properties vars2)
    /\ arg_maxAgreements AgreementProtocol call = maxAgreements msdef.
Proof.
  unfold compile. rewrite divide_filter. cbn [app].
  unfold handleServiceAttributes.
  destruct (handle_attributes _ declared) as [vars1|] eqn:H1;
    [|discriminate].
  destruct (handle_attributes _ (add_properties vars1)) as [vars2|] eqn:H2;
    [|discriminate].
  destruct (ConvertToAgreementProtocolList _); [discriminate|].
  intros [= <-]. exists vars1, vars2. repeat split; assumption.
Qed.

Lemma compile_panics (orig : list Attribute) (meta : AttributeMeta)
    (agpl : iface) :
  In (AgreementProtocolAttributes meta agpl) orig ->
  (forall protocols, agpl <> iface_slice protocols) ->
  exists reason, compiler orig = Panics reason.
Proof.
  intros Hin Hagpl. unfold compile. rewrite divide_filter. cbn [app].
  unfold handleServiceAttributes.
  destruct (scoped (AgreementProtocolAttributes meta agpl)) eqn:Hscoped.
  - destruct (handle_attributes _ declared) as [vars1|]; [|eauto].
    destruct (handle_attributes_panics (List.filter scoped orig) meta agpl
                (add_properties vars1)) as [reason ->]; [|assumption|eauto].
    apply filter_In. split; assumption.
  - destruct (handle_attributes_panics
                (List.filter (fun attr => negb (scoped attr)) orig) meta agpl
                declared) as [reason ->]; [|assumption|eauto].
    apply filter_In. split; [assumption|]. rewrite Hscoped. reflexivity.
Qed.

(** C4, where the source departs from it: when an applicable
    agreement-protocol attribute holds something else than a list, the
    compiler does not return an error: it panics; the channel is left as it
    was. *)
Theorem GenMicroservicePolicy_panics (db : DB) (e : list Message)
    (meta : AttributeMeta) (agpl : iface) :
  read_error db = None ->
  In (AgreementProtocolAttributes meta agpl) (service_attributes db) ->
  applicable (SpecRef msdef) (AgreementProtocolAttributes meta agpl) = true ->
  (forall protocols, agpl <> iface_slice protocols) ->
  exists reason, fst (generator e deviceOrg db) = (Panics reason, e).
Proof.
  intros Hread Hin Happlicable Hagpl.
  unfold GenMicroservicePolicy, bind, FindApplicableAttributes.
  rewrite Hread.
  destruct (compile_panics
              (List.filter (applicable (SpecRef msdef)) (service_attributes db))
              meta agpl) as [reason ->]; [|assumption|].
  - apply filter_In. split; assumption.
  - exists reason. reflexivity.
Qed.

(** A store that cannot be read: the error is returned, nothing is sent. *)
Lemma GenMicroservicePolicy_store_error (db : DB) (e : list Message)
    (err : error) :
  fst (FindApplicableAttributes (SpecRef msdef) db) = inl err ->
  fst (generator e deviceOrg db)
  = (Returns (Some (fmt_Errorf "Failed to get the microservice attributes from db" err)), e).
Proof.
  unfold GenMicroservicePolicy, bind.
  destruct (FindApplicableAttributes _ db) as [[err'|attrs] db']; cbn;
    [|discriminate].
  intros [= ->]. reflexivity.
Qed.

(** A protocol list that does not convert: the error is returned, nothing
    is sent. *)
Lemma GenMicroservicePolicy_conversion_error (db : DB) (e : list Message)
    (orig : list Attribute) (vars1 vars2 : variables) (err : error) :
  fst (FindApplicableAttributes (SpecRef msdef) db) = inr orig ->
  handleServiceAttributes (List.filter (fun attr => negb (scoped attr)) orig)
    declared = Returns vars1 ->
  handleServiceAttributes (List.filter scoped orig) vars1 = Returns vars2 ->
  ConvertToAgreementProtocolList (serviceAgreementProtocols vars2) = inl err ->
  fst (generator e deviceOrg db)
  = (Returns (Some (fmt_Errorf "Error converting agreement protocol list attribute to agreement protocol list" err)), e).
Proof.
  unfold GenMicroservicePolicy, bind.
  destruct (FindApplicableAttributes _ db) as [[err'|attrs] db']; cbn;
    [discriminate|].
  intros [= ->] H1 H2 Hconvert.
  unfold compile. rewrite divide_filter. cbn [app].
  rewrite H1, H2, Hconvert. reflexivity.
Qed.

(** X12: whatever the call does, the messages that were in the channel
    stay; something is sent only by a call that returns nil, and then it is
    one message, added at the end. *)
Lemma GenMicroservicePolicy_sends (db : DB) (e e' : list Message)
    (result : outcome (option error)) :
  fst (generator e deviceOrg db) = (result, e') ->
  e' = e \/ (result = Returns None /\ exists msg, e' = e ++ [msg]).
Proof.
  unfold GenMicroservicePolicy, bind.
  destruct (FindApplicableAttributes _ db) as [[err|attrs] db']; cbn.
  - intros [= <- <-]. left. reflexivity.
  - destruct (compile _ _ _ _ _ _) as [[err|call]|reason]; cbn.
    + intros [= <- <-]. left. reflexivity.
    + destruct (GeneratePolicy call) as [err|msg]; cbn; intros [= <- <-];
        [left; reflexivity|].
      right. split; [reflexivity|]. exists msg. reflexivity.
    + intros [= <- <-]. left. reflexivity.
Qed.

(** With a readable store, the function is the compilation of the
    applicable attributes followed by the generation of the policy and the
    sending of its message. *)
Lemma GenMicroservicePolicy_generates (db : DB) (e : list Message)
    (call : GeneratePolicy_call AgreementProtocol) :
  read_error db = None ->
  compiler (List.filter (applicable (SpecRef msdef)) (service_attributes db))
  = Returns (inr call) ->
  fst (generator e deviceOrg db)
  = match GeneratePolicy call with
    | inl err => (Returns (Some (fmt_Errorf "Failed to generate policy" err)), e)
    | inr msg => (Returns None, e ++ [msg])
    end.
Proof.
  intros Hread Hcompile.
  unfold GenMicroservicePolicy, bind, FindApplicableAttributes.
  rewrite Hread, Hcompile. destruct (GeneratePolicy call); reflexivity.
Qed.

(** Where a specific value does override: a key of the last specific
    property attribute has the value of that attribute in the property bag
    that is handed to [policy.GeneratePolicy], whatever the common
    attributes and the specific ones before it say. *)
Theorem compile_specific_property (pre post : list Attribute)
    (meta : AttributeMeta) (mappings : gmap string iface) (key : string)
    (val : iface) (call : GeneratePolicy_call AgreementProtocol) :
  scoped (PropertyAttributes meta mappings) = true ->
  (forall attr, In attr post -> scoped attr = true ->
                is_property attr = false) ->
  mappings !! key = Some val ->
  compiler (pre ++ PropertyAttributes meta mappings :: post)
  = Returns (inr call) ->
  arg_props AgreementProtocol call !! key = Some val.
Proof.
  intros Hscoped Hlast Hkey Hcompile.
  apply compile_returns in Hcompile.
  destruct Hcompile as (vars1 & vars2 & _ & Hspecific & -> & _).
  apply add_properties_lookup.
  rewrite List.filter_app in Hspecific. cbn [List.filter] in Hspecific.
  rewrite Hscoped in Hspecific.
  rewrite handle_attributes_app in Hspecific.
  destruct (handle_attributes (List.filter scoped pre) _) as [vars|];
    [|discriminate].
  cbn [handle_attributes handle_attribute] in Hspecific.
  apply handle_attributes_properties in Hspecific.
  - rewrite Hspecific. exact Hkey.
  - intros attr Hattr. apply filter_In in Hattr.
    destruct Hattr as [Hin Hs]. apply Hlast; assumption.
Qed.

(** C9: the [maxAgreements] handed to [policy.GeneratePolicy] is 1 for the
    sharing mode exclusive and 2 for single and for multiple. *)
Theorem compile_maxAgreements (orig : list Attribute)
    (call : GeneratePolicy_call AgreementProtocol) :
  compiler orig = Returns (inr call) ->
  (Sharable msdef = exchange.MS_SHARING_MODE_EXCLUSIVE ->
   arg_maxAgreements AgreementProtocol call = 1)
  /\ (Sharable msdef = exchange.MS_SHARING_MODE_SINGLE
      \/ Sharable msdef = exchange.MS_SHARING_MODE_MULTIPLE ->
      arg_maxAgreements AgreementProtocol call = 2).
Proof.
  intros Hcompile. apply compile_returns in Hcompile.
  destruct Hcompile as (_ & _ & _ & _ & _ & ->).
  unfold maxAgreements. split.
  - intros ->. reflexivity.
  - intros [-> | ->]; reflexivity.
Qed.

End PolicyCompiler.

Lemma GenMicroservicePolicy_panics_witness :
  exists reason,
    fst (scenario.generate scenario.installed []
           (scenario.store [] [] [scenario.protocol_as_string]))
    = (Panics reason, []).
Proof.
  apply (GenMicroservicePolicy_panics string string scenario.protocol_names
           scenario.announce scenario.installed "/var/horizon/policy.d/"
           "IBM" (scenario.store [] [] [scenario.protocol_as_string]) []
           scenario.everywhere (iface_string "Citizen Scientist")).
  - reflexivity.
  - left. reflexivity.
  - reflexivity.
  - discriminate.
Defined.

(** The same call, evaluated: no error comes back. *)
Lemma GenMicroservicePolicy_panics_example :
  fst (scenario.generate scenario.installed []
         (scenario.store [] [] [scenario.protocol_as_string]))
  = (Panics "interface conversion: interface {} is not []interface {}", []).
Proof.
  reflexivity.
Qed.

Lemma compile_specific_property_witness :
  exists call,
    scenario.compiled scenario.installed
      [scenario.region_everywhere; scenario.region_for_gps]
    = Returns (inr call)
    /\ arg_props string call !! "region" = Some (iface_string "eu").
Proof.
  eexists. split; [reflexivity|].
  eapply (compile_specific_property string scenario.protocol_names
            scenario.installed "/var/horizon/policy.d/" "IBM"
            [scenario.region_everywhere] [] scenario.for_gps
            {[ "region" := iface_string "eu" ]} "region"
            (iface_string "eu")).
  - reflexivity.
  - intros attr [].
  - reflexivity.
  - reflexivity.
Defined.

(** The override that is lost, evaluated: the key "region" is in a common
    and in a specific property attribute, but a later specific property
    attribute without it takes the place of the specific mappings, and the
    property bag keeps the common value. *)
Lemma compile_specific_property_counterexample :
  scoped scenario.region_everywhere = false
  /\ scoped scenario.region_for_gps = true
  /\ exists call,
       scenario.compiled scenario.installed
         [scenario.region_everywhere; scenario.region_for_gps;
          scenario.zone_for_gps]
       = Returns (inr call)
       /\ arg_props string call !! "region" = Some (iface_string "us")
       /\ arg_props string call !! "zone" = Some (iface_string "1").
Proof.
  split; [reflexivity|]. split; [reflexivity|].
  eexists. split; [reflexivity|]. split; reflexivity.
Qed.

Lemma compile_maxAgreements_witness :
  exists exclusive multiple,
    scenario.compiled scenario.installed [] = Returns (inr exclusive)
    /\ arg_maxAgreements string exclusive = 1
    /\ scenario.compiled (scenario.shared "multiple" scenario.installed) []
       = Returns (inr multiple)
    /\ arg_maxAgreements string multiple = 2.
Proof.
  eexists. eexists. split; [reflexivity|]. split.
  - apply (proj1 (compile_maxAgreements string scenario.protocol_names
                    scenario.installed "/var/horizon/policy.d/" "IBM" [] _
                    eq_refl)).
    reflexivity.
  - split; [reflexivity|].
    apply (proj2 (compile_maxAgreements string scenario.protocol_names
                    (scenario.shared "multiple" scenario.installed)
                    "/var/horizon/policy.d/" "IBM" [] _ eq_refl)).
    right. reflexivity.
Defined.

(** * Further properties *)

(** ** The stall detector and the eligibility check together *)

(** X2: while the clock does not wrap, a stall that is detected stays
    detected as the clock advances. *)
Theorem MicroserviceNeedsRollback_stays (timeout now later : Z)
    (msdef : MicroserviceDefinition) :
  0 <= UpgradeStartTime msdef <= now ->
  now <= later ->
  later < uint64.modulus ->
  MicroserviceNeedsRollback timeout now msdef = true ->
  MicroserviceNeedsRollback timeout later msdef = true.
Proof.
  intros Hstart Hlater Hmax.
  rewrite !MicroserviceNeedsRollback_unfold.
  rewrite !uint64_sub_no_wrap by lia.
  rewrite !andb_true_iff, !Z.gtb_gt. intros [Hsame Hgt].
  split; [exact Hsame | lia].
Qed.

Lemma MicroserviceNeedsRollback_stays_witness :
  MicroserviceNeedsRollback 300 5000 scenario.started_at_1000 = true.
Proof.
  apply (MicroserviceNeedsRollback_stays 300 1301 5000
           scenario.started_at_1000).
  - cbn. lia.
  - lia.
  - unfold uint64.modulus. lia.
  - reflexivity.
Defined.

(** X3: a definition whose upgrade has stalled, and has neither been
    re-registered nor marked as failed, is not ready for another upgrade,
    whatever the store holds. *)
Theorem MicroserviceNeedsRollback_not_ready (timeout now : Z)
    (msdef : MicroserviceDefinition) (db : DB) :
  MicroserviceNeedsRollback timeout now msdef = true ->
  UpgradeMsReregisteredTime msdef = 0 ->
  UpgradeFailedTime msdef = 0 ->
  fst (MicroserviceReadyForUpgrade msdef db) = false.
Proof.
  rewrite MicroserviceNeedsRollback_unfold, !andb_true_iff.
  intros [[Hstart _] _] Hrereg Hfailed.
  unfold MicroserviceReadyForUpgrade.
  destruct (Archived msdef); [reflexivity|].
  destruct (negb (AutoUpgrade msdef)); [reflexivity|].
  rewrite Hstart, Hrereg, Hfailed. reflexivity.
Qed.

Lemma MicroserviceNeedsRollback_not_ready_witness :
  fst (MicroserviceReadyForUpgrade scenario.started_at_1000
         (scenario.store [] [] [])) = false.
Proof.
  apply (MicroserviceNeedsRollback_not_ready 300 1301
           scenario.started_at_1000); reflexivity.
Defined.

(** ** The conversion of a registry-side definition *)

Section ConversionProperties.

Variable ToLower : string -> string.
Variable json_Marshal : exchange.MicroserviceDefinition -> error + list byte.
Variable sha3_Sum256 : list byte -> list byte.

Local Abbreviation convert :=
  (ConvertToPersistent ToLower json_Marshal sha3_Sum256).

(** What a conversion that succeeds gives. *)
Lemma ConvertToPersistent_inr (ems : exchange.MicroserviceDefinition)
    (org : string) (pms : MicroserviceDefinition) :
  convert ems org = inr pms ->
  exists serial,
    json_Marshal ems = inr serial
    /\ MetadataHash pms = sha3_Sum256 serial
    /\ SpecRef pms = exchange.SpecRef ems
    /\ Version pms = exchange.Version ems
    /\ Org pms = org
    /\ Id pms = ""
    /\ Archived pms = false
    /\ AutoUpgrade pms = false
    /\ UpgradeStartTime pms = 0
    /\ UpgradeMsReregisteredTime pms = 0
    /\ UpgradeFailedTime pms = 0
    /\ UpgradeExecutionStartTime pms = 0
    /\ UpgradeNewMsId pms = "".
Proof.
  unfold ConvertToPersistent.
  destruct (json_Marshal ems) as [err|serial]; [discriminate|].
  intros [= <-]. exists serial. cbn. repeat split.
Qed.

(** X4: a converted definition has one of the three sharing modes: the
    lower-cased mode of the registry when that is single, multiple or
    exclusive, and exclusive for everything else. *)
Theorem ConvertToPersistent_Sharable (ems : exchange.MicroserviceDefinition)
    (org : string) (pms : MicroserviceDefinition) :
  convert ems org = inr pms ->
  (Sharable pms = exchange.MS_SHARING_MODE_EXCLUSIVE
   \/ Sharable pms = exchange.MS_SHARING_MODE_SINGLE
   \/ Sharable pms = exchange.MS_SHARING_MODE_MULTIPLE)
  /\ (ToLower (exchange.Sharable ems) = exchange.MS_SHARING_MODE_SINGLE
      \/ ToLower (exchange.Sharable ems) = exchange.MS_SHARING_MODE_MULTIPLE ->
      Sharable pms = ToLower (exchange.Sharable ems))
  /\ (ToLower (exchange.Sharable ems) <> exchange.MS_SHARING_MODE_SINGLE ->
      ToLower (exchange.Sharable ems) <> exchange.MS_SHARING_MODE_MULTIPLE ->
      Sharable pms = exchange.MS_SHARING_MODE_EXCLUSIVE).
Proof.
  unfold ConvertToPersistent.
  destruct (json_Marshal ems) as [err|serial]; [discriminate|].
  intros [= <-]. cbn [Sharable].
  destruct (String.eqb_spec (ToLower (exchange.Sharable ems))
              exchange.MS_SHARING_MODE_EXCLUSIVE) as [He|He];
    destruct (String.eqb_spec (ToLower (exchange.Sharable ems))
                exchange.MS_SHARING_MODE_SINGLE) as [Hs|Hs];
    destruct (String.eqb_spec (ToLower (exchange.Sharable ems))
                exchange.MS_SHARING_MODE_MULTIPLE) as [Hm|Hm];
    cbn [negb andb]; repeat split; intros; try tauto; try congruence;
    try (rewrite Hs in He; discriminate He);
    try (rewrite Hm in He; discriminate He).
Qed.

(** X5: a definition that comes out of the conversion is inert: it is not
    ready for an upgrade on any store, and it needs no rollback at any
    clock value under any timeout. *)
Theorem ConvertToPersistent_inert (ems : exchange.MicroserviceDefinition)
    (org : string) (pms : MicroserviceDefinition) :
  convert ems org = inr pms ->
  (forall db, fst (MicroserviceReadyForUpgrade pms db) = false)
  /\ (forall timeout now, MicroserviceNeedsRollback timeout now pms = false).
Proof.
  intros H. apply ConvertToPersistent_inr in H.
  destruct H as (serial & _ & _ & _ & _ & _ & _ & Harch & Hauto & Hstart & _).
  split.
  - intros db. unfold MicroserviceReadyForUpgrade.
    rewrite Harch, Hauto. reflexivity.
  - intros timeout now. rewrite MicroserviceNeedsRollback_unfold, Hstart.
    reflexivity.
Qed.

End ConversionProperties.

Lemma ConvertToPersistent_Sharable_witness :
  exists pms,
    scenario.converted (scenario.offered_as "Multiple" "1.0.0") = inr pms
    /\ Sharable pms = "multiple"
    /\ exists other,
         scenario.converted (scenario.offered_as "shared" "1.0.0") = inr other
         /\ Sharable other = "exclusive".
Proof.
  eexists. split; [reflexivity|]. split.
  - apply (proj1 (proj2 (ConvertToPersistent_Sharable scenario.lower
                           scenario.spell scenario.keep
                           (scenario.offered_as "Multiple" "1.0.0") "IBM" _
                           eq_refl))).
    right. reflexivity.
  - eexists. split; [reflexivity|].
    apply (proj2 (proj2 (ConvertToPersistent_Sharable scenario.lower
                           scenario.spell scenario.keep
                           (scenario.offered_as "shared" "1.0.0") "IBM" _
                           eq_refl))); discriminate.
Defined.

Lemma ConvertToPersistent_inert_witness :
  exists pms,
    scenario.converted (scenario.offered "2.0.0") = inr pms
    /\ fst (MicroserviceReadyForUpgrade pms (scenario.store [] [] [])) = false
    /\ MicroserviceNeedsRollback 300 1301 pms = false.
Proof.
  eexists. split; [reflexivity|].
  pose proof (ConvertToPersistent_inert scenario.lower scenario.spell
                scenario.keep (scenario.offered "2.0.0") "IBM" _ eq_refl)
    as [Hready Hrollback].
  split; [apply Hready | apply Hrollback].
Defined.

(** ** What the version resolver returns *)

Lemma strings_Compare_ltb (a b : string) :
  (strings.Compare a b <? 0) = false -> strings.Compare a b >= 0.
Proof.
  intros H. apply Z.ltb_ge in H. lia.
Qed.

Section ResolvedCandidate.

Variable ToLower : string -> string.
Variable json_Marshal : exchange.MicroserviceDefinition -> error + list byte.
Variable sha3_Sum256 : list byte -> list byte.
Variable Version_Expression : Type.
Variable Version_Expression_Factory : string -> error + Version_Expression.
Variable Get_expression : Version_Expression -> string.
Variable HTTPClientFactory : Type.
Variable GetMicroservice :
  HTTPClientFactory -> string -> string -> string -> string ->
  string -> string -> string -> error + exchange.MicroserviceDefinition.

Variable msdef : MicroserviceDefinition.
Variable httpClientFactory : HTTPClientFactory.
Variables exchURL deviceId deviceToken : string.

Local Abbreviation resolver :=
  (GetUpgradeMicroserviceDef ToLower json_Marshal sha3_Sum256
     Version_Expression Version_Expression_Factory Get_expression
     HTTPClientFactory GetMicroservice msdef httpClientFactory exchURL
     deviceId deviceToken).

(** A candidate that is returned went through the three tests. *)
Lemma GetUpgradeMicroserviceDef_returned (db : DB)
    (new : MicroserviceDefinition) (err : option error) :
  fst (resolver db) = (Some new, err) ->
  exists e_msdef new_msdef,
    ConvertToPersistent ToLower json_Marshal sha3_Sum256 e_msdef (Org msdef)
    = inr new_msdef
    /\ new = copy_attributes msdef new_msdef
    /\ err = None
    /\ (strings.Compare (exchange.Version e_msdef) (Version msdef) <? 0)
       = false
    /\ (strings.Compare (exchange.Version e_msdef) (Version msdef) =? 0)
       && bytes.Equal (MetadataHash msdef) (MetadataHash new_msdef) = false.
Proof.
  unfold GetUpgradeMicroserviceDef.
  destruct (Version_Expression_Factory _) as [?|vExp]; [discriminate|].
  destruct (GetMicroservice _ _ _ _ _ _ _ _) as [?|e_msdef]; [discriminate|].
  destruct (ConvertToPersistent _ _ _ _ _) as [?|new_msdef] eqn:Hconvert;
    [discriminate|].
  destruct (_ <? 0) eqn:Hless; [discriminate|].
  destruct (_ && bytes.Equal _ _) eqn:Hsame; [discriminate|].
  intros H. exists e_msdef, new_msdef.
  assert (Hnew : new = copy_attributes msdef new_msdef /\ err = None).
  { destruct (negb _).
    - unfold bind in H.
      destruct (FindMicroserviceDefs _ db) as [[?|msdefs] db'];
        cbn in H; [discriminate|].
      destruct (existsb _ msdefs); cbn in H; [discriminate|].
      injection H as <- <-. split; reflexivity.
    - cbn in H. injection H as <- <-. split; reflexivity. }
  destruct Hnew as [-> ->]. repeat split; assumption.
Qed.

(** X6: a candidate that the resolver returns is never a downgrade and
    never the installed content again: its version string does not compare
    below the installed one, and its version or its metadata hash differs
    from the installed one. *)
Theorem GetUpgradeMicroserviceDef_newer (db : DB)
    (new : MicroserviceDefinition) (err : option error) :
  fst (resolver db) = (Some new, err) ->
  strings.Compare (Version new) (Version msdef) >= 0
  /\ (Version new <> Version msdef
      \/ MetadataHash new <> MetadataHash msdef).
Proof.
  intros H. apply GetUpgradeMicroserviceDef_returned in H.
  destruct H as (e_msdef & new_msdef & Hconvert & -> & _ & Hless & Hsame).
  apply ConvertToPersistent_inr in Hconvert.
  destruct Hconvert as (serial & _ & _ & _ & Hversion & _).
  cbn [copy_attributes Version MetadataHash]. rewrite Hversion.
  split; [apply strings_Compare_ltb, Hless|].
  apply andb_false_iff in Hsame. destruct Hsame as [Hne | Hne].
  - left. intros Heq. apply strings_Compare_eq in Heq.
    rewrite Heq in Hne. discriminate.
  - right. intros Heq. symmetry in Heq. apply bytes_Equal_eq in Heq.
    congruence.
Qed.

(** X7: a candidate is returned without an error, and it is a fresh
    record of the organisation of the installed definition: no Id yet, not
    archived, no upgrade under way and no successor; so it needs no
    rollback at any clock value. *)
Theorem GetUpgradeMicroserviceDef_fresh (db : DB)
    (new : MicroserviceDefinition) (err : option error) :
  fst (resolver db) = (Some new, err) ->
  err = None
  /\ Org new = Org msdef
  /\ Id new = ""
  /\ Archived new = false
  /\ UpgradeStartTime new = 0
  /\ UpgradeNewMsId new = ""
  /\ forall timeout now, MicroserviceNeedsRollback timeout now new = false.
Proof.
  intros H. apply GetUpgradeMicroserviceDef_returned in H.
  destruct H as (e_msdef & new_msdef & Hconvert & -> & -> & _).
  apply ConvertToPersistent_inr in Hconvert.
  destruct Hconvert as (serial & _ & _ & _ & _ & Horg & Hid & Harch & _
                        & Hstart & _ & _ & _ & Hnew).
  cbn [copy_attributes Org Id Archived UpgradeStartTime UpgradeNewMsId].
  repeat split; try assumption.
  intros timeout now. rewrite MicroserviceNeedsRollback_unfold.
  cbn [copy_attributes UpgradeStartTime]. rewrite Hstart. reflexivity.
Qed.

End ResolvedCandidate.

Lemma GetUpgradeMicroserviceDef_newer_witness :
  exists new,
    fst (scenario.resolve "2.0.0" scenario.installed
           (scenario.store [] [] [])) = (Some new, None)
    /\ strings.Compare (Version new) "1.0.0" >= 0
    /\ (Version new <> "1.0.0" \/ MetadataHash new <> []).
Proof.
  eexists. split; [reflexivity|].
  apply (GetUpgradeMicroserviceDef_newer scenario.lower scenario.spell
           scenario.keep string scenario.accept (fun vExp => vExp) unit
           (scenario.registry "2.0.0") scenario.installed tt
           "https://exchange/v1/" "IBM/node1" "token"
           (scenario.store [] [] []) _ None eq_refl).
Defined.

Lemma GetUpgradeMicroserviceDef_fresh_witness :
  exists new,
    fst (scenario.resolve "2.0.0" scenario.installed
           (scenario.store [] [] [])) = (Some new, None)
    /\ Id new = ""
    /\ MicroserviceNeedsRollback 300 1301 new = false.
Proof.
  eexists. split; [reflexivity|].
  pose proof (GetUpgradeMicroserviceDef_fresh scenario.lower scenario.spell
                scenario.keep string scenario.accept (fun vExp => vExp) unit
                (scenario.registry "2.0.0") scenario.installed tt
                "https://exchange/v1/" "IBM/node1" "token"
                (scenario.store [] [] []) _ None eq_refl)
    as (_ & _ & Hid & _ & _ & _ & Hrollback).
  split; [exact Hid | apply Hrollback].
Defined.

(** ** What the policy compiler hands over *)

Lemma handle_attributes_panics_inv (attributes : list Attribute)
    (vars : variables) (reason : string) :
  handle_attributes attributes vars = Panics reason ->
  exists meta agpl,
    In (AgreementProtocolAttributes meta agpl) attributes
    /\ forall protocols, agpl <> iface_slice protocols.
Proof.
  revert vars. induction attributes as [|attr rest IH]; intros vars; cbn;
    [discriminate|].
  destruct (handle_attribute vars attr) as [vars'|why] eqn:Hattr.
  - intros H. destruct (IH _ H) as (meta & agpl & Hin & Hagpl).
    exists meta, agpl. split; [right; exact Hin | exact Hagpl].
  - intros _.
    destruct attr as [m c r|m a|m p|m t u n|m x|m mp|m agpl|m k];
      try discriminate Hattr.
    exists m, agpl. split; [left; reflexivity|].
    intros protocols ->. discriminate Hattr.
Qed.

Lemma handle_attributes_handled (attributes : list Attribute)
    (vars : variables) :
  handle_attributes (List.filter handled attributes) vars
  = handle_attributes attributes vars.
Proof.
  revert vars. induction attributes as [|attr rest IH]; intros vars;
    [reflexivity|].
  destruct attr as [m c r|m a|m p|m t u n|m x|m mp|m agpl|m k];
    cbn [List.filter handled handle_attributes];
    try (destruct (handle_attribute vars _); [apply IH | reflexivity]).
  cbn [handle_attribute]. apply IH.
Qed.

Lemma filter_comm {A : Type} (f g : A -> bool) (l : list A) :
  List.filter f (List.filter g l) = List.filter g (List.filter f l).
Proof.
  induction l as [|x l IH]; [reflexivity|]. cbn.
  destruct (f x) eqn:Hf, (g x) eqn:Hg; cbn; rewrite ?Hf, ?Hg, IH;
    reflexivity.
Qed.

Lemma handle_attributes_policyArch (attributes : list Attribute)
    (vars vars' : variables) :
  (forall attr, In attr attributes -> is_architecture attr = false) ->
  handle_attributes attributes vars = Returns vars' ->
  policyArch vars' = policyArch vars.
Proof.
  revert vars. induction attributes as [|attr rest IH]; intros vars Hnone;
    cbn.
  - intros [= <-]. reflexivity.
  - assert (Hattr : is_architecture attr = false)
      by (apply Hnone; left; reflexivity).
    assert (Hrest : forall a, In a rest -> is_architecture a = false)
      by (intros a Ha; apply Hnone; right; exact Ha).
    destruct attr as [m c r|m a|m p|m t u n|m x|m mp|m agpl|m k]; cbn;
      try discriminate Hattr;
      try (intros H; rewrite (IH _ Hrest H); reflexivity).
    destruct agpl; try discriminate.
    intros H. rewrite (IH _ Hrest H). reflexivity.
Qed.

Lemma add_properties_policyArch (vars : variables) :
  policyArch (add_properties vars) = policyArch vars.
Proof.
  unfold add_properties. destruct (0 <? _); reflexivity.
Qed.

Lemma add_properties_properties (vars : variables) :
  properties (add_properties vars) = properties vars.
Proof.
  unfold add_properties. destruct (0 <? _); reflexivity.
Qed.

(** The last attribute of a kind in a list, by the test of the kind. *)
Lemma handle_attributes_last_architecture (pre post : list Attribute)
    (meta : AttributeMeta) (architecture : string) (vars vars' : variables) :
  (forall attr, In attr post -> is_architecture attr = false) ->
  handle_attributes (pre ++ ArchitectureAttributes meta architecture :: post)
    vars = Returns vars' ->
  policyArch vars' = architecture.
Proof.
  intros Hlast H. rewrite handle_attributes_app in H.
  destruct (handle_attributes pre vars) as [mid|]; [|discriminate].
  cbn [handle_attributes handle_attribute] in H.
  apply handle_attributes_policyArch in H; assumption.
Qed.

Lemma handle_attributes_last_property (pre post : list Attribute)
    (meta : AttributeMeta) (mappings : gmap string iface)
    (vars vars' : variables) :
  (forall attr, In attr post -> is_property attr = false) ->
  handle_attributes (pre ++ PropertyAttributes meta mappings :: post) vars
  = Returns vars' ->
  properties vars' = mappings.
Proof.
  intros Hlast H. rewrite handle_attributes_app in H.
  destruct (handle_attributes pre vars) as [mid|]; [|discriminate].
  cbn [handle_attributes handle_attribute] in H.
  apply handle_attributes_properties in H; assumption.
Qed.

Lemma filter_none {A : Type} (f g : A -> bool) (l : list A) :
  (forall x, In x l -> f x = true -> g x = false) ->
  forall x, In x (List.filter f l) -> g x = false.
Proof.
  intros H x Hx. apply filter_In in Hx. destruct Hx as [Hin Hf].
  apply H; assumption.
Qed.

Section CompiledCall.

Variable AgreementProtocol : Type.
Variable ConvertToAgreementProtocolList :
  list iface -> error + list AgreementProtocol.

Variable msdef : MicroserviceDefinition.
Variables policyPath deviceOrg : string.

Local Abbreviation compiler :=
  (compile AgreementProtocol ConvertToAgreementProtocolList msdef policyPath
     deviceOrg).

(** The variables behind a call that is compiled. *)
Lemma compile_variables (orig : list Attribute)
    (call : GeneratePolicy_call AgreementProtocol) :
  compiler orig = Returns (inr call) ->
  exists vars1 vars2,
    handle_attributes (List.filter (fun attr => negb (scoped attr)) orig)
      declared = Returns vars1
    /\ handle_attributes (List.filter scoped orig) (add_properties vars1)
       = Returns vars2
    /\ arg_props AgreementProtocol call = props (add_properties vars2)
    /\ arg_arch AgreementProtocol call = policyArch vars2.
Proof.
  unfold compile. rewrite divide_filter. cbn [app].
  unfold handleServiceAttributes.
  destruct (handle_attributes _ declared) as [vars1|] eqn:H1;
    [|discriminate].
  destruct (handle_attributes _ (add_properties vars1)) as [vars2|] eqn:H2;
    [|discriminate].
  destruct (ConvertToAgreementProtocolList _); [discriminate|].
  intros [= <-]. exists vars1, vars2. cbn.
  rewrite add_properties_policyArch. repeat split; assumption.
Qed.

(** X8: the compilation panics exactly when one of the attributes is an
    agreement-protocol attribute whose protocols are not a list; with lists
    only it returns, a call or an error. *)
Theorem compile_panics_iff (orig : list Attribute) :
  (exists reason, compiler orig = Panics reason) <->
  exists meta agpl,
    In (AgreementProtocolAttributes meta agpl) orig
    /\ forall protocols, agpl <> iface_slice protocols.
Proof.
  split.
  - intros [reason H]. unfold compile in H. rewrite divide_filter in H.
    cbn [app] in H. unfold handleServiceAttributes in H.
    destruct (handle_attributes _ declared) as [vars1|why] eqn:H1.
    + destruct (handle_attributes _ (add_properties vars1)) as [vars2|why]
        eqn:H2.
      * destruct (ConvertToAgreementProtocolList _); discriminate.
      * apply handle_attributes_panics_inv in H2.
        destruct H2 as (meta & agpl & Hin & Hagpl).
        apply filter_In in Hin. exists meta, agpl. tauto.
    + apply handle_attributes_panics_inv in H1.
      destruct H1 as (meta & agpl & Hin & Hagpl).
      apply filter_In in Hin. exists meta, agpl. tauto.
  - intros (meta & agpl & Hin & Hagpl).
    exact (compile_panics AgreementProtocol ConvertToAgreementProtocolList
             msdef policyPath deviceOrg orig meta agpl Hin Hagpl).
Qed.

(** X9: attributes of a kind that the compiler has no case for change
    nothing: leaving them out gives the same call, error or panic. *)
Theorem compile_handled (orig : list Attribute) :
  compiler (List.filter handled orig) = compiler orig.
Proof.
  unfold compile. rewrite !divide_filter. cbn [app].
  rewrite (filter_comm (fun attr => negb (scoped attr)) handled).
  rewrite (filter_comm scoped handled).
  unfold handleServiceAttributes.
  rewrite handle_attributes_handled.
  destruct (handle_attributes _ declared) as [vars1|]; [|reflexivity].
  rewrite handle_attributes_handled. reflexivity.
Qed.

(** X10: the architecture of the policy is that of the last specific
    architecture attribute; without a specific one, that of the last common
    one; and empty without any. *)
Theorem compile_architecture (orig : list Attribute)
    (call : GeneratePolicy_call AgreementProtocol) :
  compiler orig = Returns (inr call) ->
  (forall pre meta architecture post,
      orig = pre ++ ArchitectureAttributes meta architecture :: post ->
      scoped (ArchitectureAttributes meta architecture) = true ->
      (forall attr, In attr post -> scoped attr = true ->
                    is_architecture attr = false) ->
      arg_arch AgreementProtocol call = architecture)
  /\ (forall pre meta architecture post,
         orig = pre ++ ArchitectureAttributes meta architecture :: post ->
         (forall attr, In attr orig -> scoped attr = true ->
                       is_architecture attr = false) ->
         (forall attr, In attr post -> is_architecture attr = false) ->
         arg_arch AgreementProtocol call = architecture)
  /\ ((forall attr, In attr orig -> is_architecture attr = false) ->
      arg_arch AgreementProtocol call = "").
Proof.
  intros Hcompile. apply compile_variables in Hcompile.
  destruct Hcompile as (vars1 & vars2 & Hcommon & Hspecific & _ & ->).
  split; [|split].
  - intros pre meta architecture post -> Hscoped Hlast.
    rewrite List.filter_app in Hspecific. cbn [List.filter] in Hspecific.
    rewrite Hscoped in Hspecific.
    apply handle_attributes_last_architecture in Hspecific;
      [assumption|].
    apply filter_none. exact Hlast.
  - intros pre meta architecture post -> Hnone Hlast.
    assert (Hunscoped : scoped (ArchitectureAttributes meta architecture)
                        = false).
    { destruct (scoped _) eqn:Hs; [|reflexivity].
      specialize (Hnone (ArchitectureAttributes meta architecture)).
      rewrite in_app_iff in Hnone. cbn in Hnone.
      discriminate Hnone; tauto. }
    apply handle_attributes_policyArch in Hspecific;
      [|apply filter_none; exact Hnone].
    rewrite Hspecific, add_properties_policyArch.
    rewrite List.filter_app in Hcommon. cbn [List.filter] in Hcommon.
    rewrite Hunscoped in Hcommon. cbn [negb] in Hcommon.
    apply handle_attributes_last_architecture in Hcommon; [assumption|].
    intros attr Hattr. apply filter_In in Hattr. apply Hlast, Hattr.
  - intros Hnone.
    apply handle_attributes_policyArch in Hspecific;
      [|intros attr Hattr; apply filter_In in Hattr; apply Hnone, Hattr].
    apply handle_attributes_policyArch in Hcommon;
      [|intros attr Hattr; apply filter_In in Hattr; apply Hnone, Hattr].
    rewrite Hspecific, add_properties_policyArch, Hcommon. reflexivity.
Qed.

(** X11: without a specific property attribute, the mappings of the last
    common property attribute are added to the property bag once more after
    the specific attributes, so that their values are the ones handed over,
    also for the keys "cpus" and "ram" of a specific compute attribute. *)
Theorem compile_common_property (pre post : list Attribute)
    (meta : AttributeMeta) (mappings : gmap string iface) (key : string)
    (val : iface) (call : GeneratePolicy_call AgreementProtocol) :
  (forall attr, In attr (pre ++ PropertyAttributes meta mappings :: post) ->
                scoped attr = true -> is_property attr = false) ->
  (forall attr, In attr post -> is_property attr = false) ->
  mappings !! key = Some val ->
  compiler (pre ++ PropertyAttributes meta mappings :: post)
  = Returns (inr call) ->
  arg_props AgreementProtocol call !! key = Some val.
Proof.
  intros Hnone Hlast Hkey Hcompile. apply compile_variables in Hcompile.
  destruct Hcompile as (vars1 & vars2 & Hcommon & Hspecific & -> & _).
  apply add_properties_lookup.
  assert (Hunscoped : scoped (PropertyAttributes meta mappings) = false).
  { destruct (scoped _) eqn:Hs; [|reflexivity].
    specialize (Hnone (PropertyAttributes meta mappings)).
    rewrite in_app_iff in Hnone. cbn in Hnone.
    discriminate Hnone; tauto. }
  apply handle_attributes_properties in Hspecific;
    [|apply filter_none; exact Hnone].
  rewrite Hspecific, add_properties_properties.
  rewrite List.filter_app in Hcommon. cbn [List.filter] in Hcommon.
  rewrite Hunscoped in Hcommon. cbn [negb] in Hcommon.
  apply handle_attributes_last_property in Hcommon.
  - rewrite Hcommon. exact Hkey.
  - intros attr Hattr. apply filter_In in Hattr. apply Hlast, Hattr.
Qed.

End CompiledCall.

Lemma compile_architecture_witness :
  exists call,
    scenario.compiled scenario.installed
      [scenario.arch_for_gps; scenario.arch_everywhere]
    = Returns (inr call)
    /\ arg_arch string call = "arm".
Proof.
  eexists. split; [reflexivity|].
  apply (proj1 (compile_architecture string scenario.protocol_names
                  scenario.installed "/var/horizon/policy.d/" "IBM"
                  [scenario.arch_for_gps; scenario.arch_everywhere] _
                  eq_refl)
           [] scenario.for_gps "arm" [scenario.arch_everywhere]).
  - reflexivity.
  - reflexivity.
  - intros attr [<- | []]. discriminate.
Defined.

Lemma compile_common_property_witness :
  exists call,
    scenario.compiled scenario.installed
      [scenario.cpus_everywhere; scenario.compute_for_gps]
    = Returns (inr call)
    /\ arg_props string call !! "cpus" = Some (iface_string "9")
    /\ arg_props string call !! "ram" = Some (iface_string "1024").
Proof.
  eexists. split; [reflexivity|]. split; [|reflexivity].
  eapply (compile_common_property string scenario.protocol_names
            scenario.installed "/var/horizon/policy.d/" "IBM"
            [] [scenario.compute_for_gps] scenario.everywhere
            {[ "cpus" := iface_string "9" ]} "cpus" (iface_string "9")).
  - intros attr [<- | [<- | []]] H; [discriminate H | reflexivity].
  - intros attr [<- | []]. reflexivity.
  - reflexivity.
  - reflexivity.
Defined.

Lemma GenMicroservicePolicy_sends_witness :
  exists result e',
    fst (scenario.generate scenario.installed ["earlier"]
           (scenario.store [] [] [])) = (result, e')
    /\ (e' = ["earlier"]
        \/ (result = Returns None /\ exists msg, e' = ["earlier"] ++ [msg])).
Proof.
  eexists. eexists. split; [reflexivity|].
  apply (GenMicroservicePolicy_sends string string scenario.protocol_names
           scenario.announce scenario.installed "/var/horizon/policy.d/"
           "IBM" (scenario.store [] [] []) ["earlier"] _ _ eq_refl).
Defined.

(** ** The reason codes *)

Lemma known_code_cases (code : Z) :
  known_code code ->
  code = 200 \/ code = 201 \/ code = 202 \/ code = 203 \/ code = 204
  \/ code = 205 \/ code = 206.
Proof.
  unfold known_code. lia.
Qed.

Lemma codeMeanings_None (code : Z) :
  ~ known_code code -> codeMeanings !! code = None.
Proof.
  intros H. unfold codeMeanings. apply not_elem_of_list_to_map.
  cbn. unfold MS_UNREG_EXCH_FAILED, MS_CLEAR_OLD_AGS_FAILED, MS_EXEC_FAILED,
    MS_REREG_EXCH_FAILED, MS_IMAGE_LOAD_FAILED, MS_DELETED_BY_UPGRADE_PROCESS,
    MS_DELETED_FOR_AG_ENDED.
  rewrite !elem_of_cons, elem_of_nil. unfold known_code in H. lia.
Qed.

(** X13: a reason code has a description exactly when it is one of 200 to
    206; every other code decodes to the text for an unknown code, and no
    code of 200 to 206 does. *)
Theorem DecodeReasonCode_unknown (code : Z) :
  DecodeReasonCode code = "unknown reason code, device might be downlevel"
  <-> ~ known_code code.
Proof.
  split.
  - intros H Hknown. apply known_code_cases in Hknown.
    destruct Hknown as [-> | [-> | [-> | [-> | [-> | [-> | ->]]]]]];
      vm_compute in H; discriminate H.
  - intros H. unfold DecodeReasonCode. rewrite codeMeanings_None by exact H.
    reflexivity.
Qed.

(** X14: two reason codes decode to the same text exactly when they are
    the same code or both have no description. *)
Theorem DecodeReasonCode_same (a b : Z) :
  DecodeReasonCode a = DecodeReasonCode b <->
  a = b \/ (~ known_code a /\ ~ known_code b).
Proof.
  split.
  - intros H.
    destruct (decide (known_code a)) as [Ha | Ha];
      destruct (decide (known_code b)) as [Hb | Hb].
    + left. apply known_code_cases in Ha, Hb.
      destruct Ha as [-> | [-> | [-> | [-> | [-> | [-> | ->]]]]]];
        destruct Hb as [-> | [-> | [-> | [-> | [-> | [-> | ->]]]]]];
        try reflexivity; vm_compute in H; discriminate H.
    + exfalso. unfold DecodeReasonCode at 2 in H.
      rewrite (codeMeanings_None b Hb) in H.
      apply known_code_cases in Ha.
      destruct Ha as [-> | [-> | [-> | [-> | [-> | [-> | ->]]]]]];
        vm_compute in H; discriminate H.
    + exfalso. unfold DecodeReasonCode at 1 in H.
      rewrite (codeMeanings_None a Ha) in H.
      apply known_code_cases in Hb.
      destruct Hb as [-> | [-> | [-> | [-> | [-> | [-> | ->]]]]]];
        vm_compute in H; discriminate H.
    + right. split; assumption.
  - intros [-> | [Ha Hb]]; [reflexivity|].
    unfold DecodeReasonCode.
    rewrite (codeMeanings_None a Ha), (codeMeanings_None b Hb). reflexivity.
Qed.

(** ** The policy files *)

Lemma string_app_cons (x : ascii) (a b : string) :
  (String x a ++ b = String x (a ++ b))%string.
Proof.
  reflexivity.
Qed.

Lemma string_app_assoc (a b c : string) :
  ((a ++ b) ++ c = a ++ b ++ c)%string.
Proof.
  induction a as [|x a IH]; [reflexivity|].
  rewrite !string_app_cons, IH. reflexivity.
Qed.

Lemma string_app_empty_r (a : string) : (a ++ "" = a)%string.
Proof.
  induction a as [|x a IH]; [reflexivity|].
  rewrite string_app_cons, IH. reflexivity.
Qed.

Lemma contains_byte_app (c : ascii) (a b : string) :
  contains_byte c (a ++ b)
  = contains_byte c a || contains_byte c b.
Proof.
  induction a as [|x a IH]; [reflexivity|].
  rewrite string_app_cons. cbn [contains_byte].
  rewrite IH, orb_assoc. reflexivity.
Qed.

(** The last piece of a split at "/" is what follows the last "/". *)
Lemma split_loop_last (s piece : string) :
  contains_byte "/" piece = false ->
  exists fileName,
    last (strings.split_loop "/" 0 piece s) = Some fileName
    /\ contains_byte "/" fileName = false
    /\ ((piece ++ s)%string = fileName
        \/ exists dir, (piece ++ s = dir ++ "/" ++ fileName)%string).
Proof.
  revert piece. induction s as [|c rest IH]; intros piece Hpiece.
  - exists piece. cbn. repeat split; [assumption|].
    left. apply string_app_empty_r.
  - cbn [strings.split_loop String.prefix String.length Nat.sub].
    destruct (ascii_dec "/" c) as [<- | Hc].
    + replace (String.prefix "" rest) with true
        by (destruct rest; reflexivity).
      destruct (IH "" eq_refl) as (fileName & Hlast & Hno & Hshape).
      exists fileName. rewrite last_cons, Hlast.
      repeat split; [assumption|]. right.
      change ("" ++ rest)%string with rest in Hshape.
      destruct Hshape as [<- | [dir Hdir]].
      * exists piece. reflexivity.
      * exists (piece ++ "/" ++ dir)%string.
        rewrite Hdir, !string_app_assoc. reflexivity.
    + destruct (IH (piece ++ String c "")%string) as
        (fileName & Hlast & Hno & Hshape).
      { rewrite contains_byte_app, Hpiece. cbn.
        destruct (Ascii.eqb_spec c "/") as [-> | _];
          [exfalso; apply Hc; reflexivity | reflexivity]. }
      exists fileName. repeat split; try assumption.
      rewrite string_app_assoc in Hshape. exact Hshape.
Qed.

Section PolicyFileProperties.

Variable explode : string -> list string.
Variable FS : Type.
Variable os_Rename : string -> string -> FS -> option error * FS.
Variable RenamePolicyFile :
  string -> string -> string -> string -> FS -> option error * FS.
Variable PolicyManager : Type.
Variable Policy : Type.
Variable APISpecs : Policy -> list policy.APISpecification.
Variable GetAllPolicies : PolicyManager -> string -> list Policy.
Variable DeletePolicy : PolicyManager -> string -> Policy -> PolicyManager.

Local Abbreviation remove :=
  (RemoveMicroservicePolicy explode FS RenamePolicyFile PolicyManager Policy
     APISpecs GetAllPolicies DeletePolicy).

Local Abbreviation restore :=
  (RestoreMicroservicePolicyFile explode FS os_Rename PolicyManager).

(** The file name of a policy is what follows the last "/" of the url of
    the microservice; taking it never panics. *)
Lemma policy_file_name_last (spec_ref : string) :
  exists fileName,
    policy_file_name explode spec_ref = Returns fileName
    /\ contains_byte "/" fileName = false
    /\ (spec_ref = fileName
        \/ exists dir, (spec_ref = dir ++ "/" ++ fileName)%string).
Proof.
  unfold policy_file_name, strings.Split.
  destruct (split_loop_last spec_ref "" eq_refl)
    as (fileName & -> & Hno & Hshape).
  exists fileName. repeat split; assumption.
Qed.

(** X15: restoring a policy file never panics.  It renames
    [policy_path + name + ".policy." + msdef_id] to
    [policy_path + name + ".policy"], where [name] is what follows the last
    "/" of the url (the whole url when it has none); it returns the new
    path when the renaming succeeds, and the empty path with the error
    when it fails. *)
Theorem RestoreMicroservicePolicyFile_path
    (spec_ref version msdef_id policy_path : string) (pm : PolicyManager)
    (fs : FS) :
  exists fileName,
    contains_byte "/" fileName = false
    /\ (spec_ref = fileName
        \/ exists dir, (spec_ref = dir ++ "/" ++ fileName)%string)
    /\ restore spec_ref version msdef_id policy_path pm fs
       = match os_Rename
                 (policy_path ++ fileName ++ ".policy" ++ "." ++ msdef_id)%string
                 (policy_path ++ fileName ++ ".policy")%string fs with
         | (Some err, fs') =>
             (Returns ("", Some (fmt_Errorf "Failed to rename the policy file" err)),
              fs')
         | (None, fs') =>
             (Returns ((policy_path ++ fileName ++ ".policy")%string, None),
              fs')
         end.
Proof.
  destruct (policy_file_name_last spec_ref) as (fileName & Hname & Hno & Hshape).
  exists fileName. repeat split; try assumption.
  unfold RestoreMicroservicePolicyFile. rewrite Hname.
  rewrite !string_app_assoc. reflexivity.
Qed.

Local Abbreviation passed := (statement.passed Policy APISpecs).

Lemma remove_policy_passed
    (spec_ref org version msdef_id policy_path : string)
    (pre policies : list Policy) (pm : PolicyManager) (fs : FS) :
  (forall pol, In pol pre -> passed spec_ref org version pol) ->
  remove_policy explode FS RenamePolicyFile PolicyManager Policy APISpecs
    DeletePolicy spec_ref org version msdef_id policy_path (pre ++ policies)
    pm fs
  = remove_policy explode FS RenamePolicyFile PolicyManager Policy APISpecs
      DeletePolicy spec_ref org version msdef_id policy_path policies pm fs.
Proof.
  induction pre as [|pol pre IH]; intros Hpre; [reflexivity|].
  destruct (Hpre pol (or_introl eq_refl)) as (apiSpec & rest & Hspecs & Hno).
  cbn. rewrite Hspecs, Hno. apply IH.
  intros p Hp. apply Hpre. right. exact Hp.
Qed.

(** X16: when every policy of the organisation is passed by, nothing is
    removed: the call returns nil and leaves the policy manager and the
    files as they are. *)
Theorem RemoveMicroservicePolicy_none
    (spec_ref org version msdef_id policy_path : string)
    (pm : PolicyManager) (fs : FS) :
  (forall pol, In pol (GetAllPolicies pm org) ->
               passed spec_ref org version pol) ->
  remove spec_ref org version msdef_id policy_path pm fs
  = (Returns None, (pm, fs)).
Proof.
  intros Hall. unfold RemoveMicroservicePolicy.
  rewrite <- (app_nil_r (GetAllPolicies pm org)).
  rewrite remove_policy_passed by exact Hall. reflexivity.
Qed.

(** X17: the first policy whose first API spec is for the microservice is
    the one policy that is deleted, whatever follows it; its file is then
    renamed with the suffix ["." + msdef_id], under the name that follows
    the last "/" of the url; and when the renaming fails its error is
    returned with the policy already deleted. *)
Theorem RemoveMicroservicePolicy_first
    (spec_ref org version msdef_id policy_path : string)
    (pm : PolicyManager) (fs : FS) (pre post : list Policy) (pol : Policy)
    (apiSpec : policy.APISpecification)
    (others : list policy.APISpecification) :
  GetAllPolicies pm org = pre ++ pol :: post ->
  (forall p, In p pre -> passed spec_ref org version p) ->
  APISpecs pol = apiSpec :: others ->
  policy_for spec_ref org version apiSpec = true ->
  exists fileName,
    contains_byte "/" fileName = false
    /\ (spec_ref = fileName
        \/ exists dir, (spec_ref = dir ++ "/" ++ fileName)%string)
    /\ remove spec_ref org version msdef_id policy_path pm fs
       = match RenamePolicyFile policy_path org fileName
                 ("." ++ msdef_id)%string fs with
         | (Some err, fs') =>
             (Returns (Some err), (DeletePolicy pm org pol, fs'))
         | (None, fs') => (Returns None, (DeletePolicy pm org pol, fs'))
         end.
Proof.
  intros Hall Hpre Hspecs Hfor.
  destruct (policy_file_name_last spec_ref) as (fileName & Hname & Hno & Hshape).
  exists fileName. repeat split; try assumption.
  unfold RemoveMicroservicePolicy. rewrite Hall.
  rewrite remove_policy_passed by exact Hpre.
  cbn [remove_policy]. rewrite Hspecs, Hfor, Hname. reflexivity.
Qed.

(** X18: a policy without API specs that is reached before any policy for
    the microservice makes the call panic, with nothing deleted and
    nothing renamed. *)
Theorem RemoveMicroservicePolicy_panics
    (spec_ref org version msdef_id policy_path : string)
    (pm : PolicyManager) (fs : FS) (pre post : list Policy) (pol : Policy) :
  GetAllPolicies pm org = pre ++ pol :: post ->
  (forall p, In p pre -> passed spec_ref org version p) ->
  APISpecs pol = [] ->
  remove spec_ref org version msdef_id policy_path pm fs
  = (Panics "index out of range [0] with length 0", (pm, fs)).
Proof.
  intros Hall Hpre Hspecs.
  unfold RemoveMicroservicePolicy. rewrite Hall.
  rewrite remove_policy_passed by exact Hpre.
  cbn [remove_policy]. rewrite Hspecs. reflexivity.
Qed.

End PolicyFileProperties.

Lemma RemoveMicroservicePolicy_none_witness :
  scenario.removed [scenario.netspeed_policy] ["/policy.d/netspeed.policy"]
  = (Returns None,
     ([scenario.netspeed_policy], ["/policy.d/netspeed.policy"])).
Proof.
  apply (RemoveMicroservicePolicy_none scenario.no_explode (list string)
           scenario.rename_policy_file (list scenario.toy_policy)
           scenario.toy_policy snd scenario.all_policies
           scenario.delete_policy scenario.gps "IBM" "1.0.0" "def1"
           "/policy.d/" [scenario.netspeed_policy]
           ["/policy.d/netspeed.policy"]).
  intros pol [<- | []]. eexists. eexists. split; reflexivity.
Defined.

Lemma RemoveMicroservicePolicy_first_witness :
  exists fileName,
    contains_byte "/" fileName = false
    /\ (scenario.gps = fileName
        \/ exists dir, (scenario.gps = dir ++ "/" ++ fileName)%string)
    /\ scenario.removed
         [scenario.netspeed_policy; scenario.gps_policy; scenario.gps_again]
         ["/policy.d/gps.policy"]
       = match scenario.rename_policy_file "/policy.d/" "IBM" fileName
                 ".def1" ["/policy.d/gps.policy"] with
         | (Some err, fs') =>
             (Returns (Some err),
              ([scenario.netspeed_policy; scenario.gps_again], fs'))
         | (None, fs') =>
             (Returns None,
              ([scenario.netspeed_policy; scenario.gps_again], fs'))
         end.
Proof.
  apply (RemoveMicroservicePolicy_first scenario.no_explode (list string)
           scenario.rename_policy_file (list scenario.toy_policy)
           scenario.toy_policy snd scenario.all_policies
           scenario.delete_policy scenario.gps "IBM" "1.0.0" "def1"
           "/policy.d/"
           [scenario.netspeed_policy; scenario.gps_policy; scenario.gps_again]
           ["/policy.d/gps.policy"]
           [scenario.netspeed_policy] [scenario.gps_again]
           scenario.gps_policy (scenario.spec_for scenario.gps "1.0.0") []).
  - reflexivity.
  - intros pol [<- | []]. eexists. eexists. split; reflexivity.
  - reflexivity.
  - reflexivity.
Defined.

(** The same removal, evaluated: the first gps policy is gone, the second
    stays, and the file has its suffix. *)
Lemma RemoveMicroservicePolicy_first_example :
  scenario.removed
    [scenario.netspeed_policy; scenario.gps_policy; scenario.gps_again]
    ["/policy.d/gps.policy"]
  = (Returns None,
     ([scenario.netspeed_policy; scenario.gps_again],
      ["/policy.d/gps.policy.def1"])).
Proof.
  reflexivity.
Qed.

Lemma RemoveMicroservicePolicy_panics_witness :
  scenario.removed
    [scenario.netspeed_policy; scenario.empty_policy; scenario.gps_policy]
    ["/policy.d/gps.policy"]
  = (Panics "index out of range [0] with length 0",
     ([scenario.netspeed_policy; scenario.empty_policy; scenario.gps_policy],
      ["/policy.d/gps.policy"])).
Proof.
  apply (RemoveMicroservicePolicy_panics scenario.no_explode (list string)
           scenario.rename_policy_file (list scenario.toy_policy)
           scenario.toy_policy snd scenario.all_policies
           scenario.delete_policy scenario.gps "IBM" "1.0.0" "def1"
           "/policy.d/"
           [scenario.netspeed_policy; scenario.empty_policy;
            scenario.gps_policy]
           ["/policy.d/gps.policy"]
           [scenario.netspeed_policy] [scenario.gps_policy]
           scenario.empty_policy).
  - reflexivity.
  - intros pol [<- | []]. eexists. eexists. split; reflexivity.
  - reflexivity.
Defined.

(** ** The registration at the registry *)

Lemma replicate_snoc_cons {A : Type} (l : list A) (x : A) (n : nat) :
  (l ++ [x]) ++ replicate n x = l ++ replicate (S n) x.
Proof.
  rewrite <- app_assoc. reflexivity.
Qed.

Lemma replicate_then_snoc {A : Type} (l : list A) (x : A) (n : nat) :
  (l ++ replicate n x) ++ [x] = l ++ replicate (S n) x.
Proof.
  rewrite <- app_assoc. f_equal.
  induction n as [|n IH]; [reflexivity|]. cbn. rewrite IH. reflexivity.
Qed.

Section RegistryProperties.

Variable GetOrg : string -> string.
Variable GetId : string -> string.
Variable CreateDevicePut : string -> string -> exchange.PutDeviceRequest.
Variable FindExchangeDevice : DB -> error + option ExchangeDevice.

Local Abbreviation GET deviceId deviceToken exchangeUrl :=
  {| exchange.method := "GET";
     exchange.url := targetURL GetOrg GetId exchangeUrl deviceId;
     exchange.user := deviceId; exchange.pw := deviceToken;
     exchange.params := None |}.

Local Abbreviation PUT deviceId deviceToken exchangeUrl pdr :=
  {| exchange.method := "PUT";
     exchange.url := targetURL GetOrg GetId exchangeUrl deviceId;
     exchange.user := deviceId; exchange.pw := deviceToken;
     exchange.params := Some pdr |}.

Lemma get_device_transport (req : exchange.request) (deviceId : string)
    (tps script : list exchange.reply) (sent : list exchange.request)
    (slept : Z) :
  forallb is_transport tps = true ->
  get_device req deviceId (tps ++ script) sent slept
  = get_device req deviceId script (sent ++ replicate (length tps) req)
      (slept + 10 * Z.of_nat (length tps)).
Proof.
  revert sent slept. induction tps as [|rep tps IH]; intros sent slept Htps.
  - cbn. rewrite app_nil_r, Z.add_0_r. reflexivity.
  - cbn [forallb] in Htps. apply andb_true_iff in Htps.
    destruct Htps as [Hrep Htps].
    destruct rep; try discriminate Hrep.
    cbn [app get_device]. rewrite IH by exact Htps.
    rewrite replicate_snoc_cons. f_equal. cbn [length]. lia.
Qed.

Lemma put_device_transport (req : exchange.request)
    (tps script : list exchange.reply) (sent : list exchange.request)
    (slept : Z) :
  forallb is_transport tps = true ->
  put_device req (tps ++ script) sent slept
  = put_device req script (sent ++ replicate (length tps) req)
      (slept + 10 * Z.of_nat (length tps)).
Proof.
  revert sent slept. induction tps as [|rep tps IH]; intros sent slept Htps.
  - cbn. rewrite app_nil_r, Z.add_0_r. reflexivity.
  - cbn [forallb] in Htps. apply andb_true_iff in Htps.
    destruct Htps as [Hrep Htps].
    destruct rep; try discriminate Hrep.
    cbn [app put_device]. rewrite IH by exact Htps.
    rewrite replicate_snoc_cons. f_equal. cbn [length]. lia.
Qed.

(** X19: [getExchangeDevice] returns at the first reply that is not a
    transport error: an error of the call as it is, an answer as the device
    under [deviceId], or an error when the answer has no such device.  By
    then it has sent the same GET once per reply, and slept ten seconds per
    transport error. *)
Theorem getExchangeDevice_first_reply
    (deviceId deviceToken exchangeUrl : string) (net : exchange.Net)
    (tps rest : list exchange.reply) (rep : exchange.reply) :
  exchange.script net = tps ++ rep :: rest ->
  forallb is_transport tps = true ->
  is_transport rep = false ->
  exists result,
    getExchangeDevice GetOrg GetId deviceId deviceToken exchangeUrl net
    = (Some result,
       {| exchange.script := rest;
          exchange.sent :=
            exchange.sent net
            ++ replicate (S (length tps))
                 (GET deviceId deviceToken exchangeUrl);
          exchange.slept :=
            exchange.slept net + 10 * Z.of_nat (length tps) |})
    /\ (forall err, rep = exchange.Fatal err -> result = inl err)
    /\ (forall devs dev,
          rep = exchange.Answer devs -> devs !! deviceId = Some dev ->
          result = inr dev)
    /\ (forall devs,
          rep = exchange.Answer devs -> devs !! deviceId = None ->
          exists err, result = inl err).
Proof.
  intros Hscript Htps Hrep. unfold getExchangeDevice.
  rewrite Hscript, get_device_transport by exact Htps.
  destruct rep as [err|tpErr|devs]; [|discriminate Hrep|];
    cbn [get_device]; rewrite replicate_then_snoc; eexists;
    (split; [reflexivity|]); repeat split; try discriminate.
  - intros ? [= <-]. reflexivity.
  - intros ? ? [= <-] ->. reflexivity.
  - intros ? [= <-] ->. eexists. reflexivity.
Qed.

(** X20: [getExchangeDevice] does not give up on transport errors: as long
    as every reply is one, it has not returned; it has slept ten seconds
    for each and has sent the GET again. *)
Theorem getExchangeDevice_keeps_trying
    (deviceId deviceToken exchangeUrl : string) (net : exchange.Net) :
  forallb is_transport (exchange.script net) = true ->
  getExchangeDevice GetOrg GetId deviceId deviceToken exchangeUrl net
  = (None,
     {| exchange.script := [];
        exchange.sent :=
          exchange.sent net
          ++ replicate (S (length (exchange.script net)))
               (GET deviceId deviceToken exchangeUrl);
        exchange.slept :=
          exchange.slept net
          + 10 * Z.of_nat (length (exchange.script net)) |}).
Proof.
  intros Htps. unfold getExchangeDevice.
  rewrite <- (app_nil_r (exchange.script net)) at 1.
  rewrite get_device_transport by exact Htps.
  cbn [get_device]. rewrite replicate_then_snoc. reflexivity.
Qed.

Local Abbreviation unregister :=
  (UnregisterMicroserviceExchange GetOrg GetId CreateDevicePut
     FindExchangeDevice).

(** X21: without a registration of the node in the store, or with a store
    error, the microservice is not unregistered: an error is returned and
    the registry is not called at all. *)
Theorem UnregisterMicroserviceExchange_no_device
    (spec_ref exchange_url device_id device_token : string) (db : DB)
    (net : exchange.Net) :
  FindExchangeDevice db = inr None
  \/ (exists err, FindExchangeDevice db = inl err) ->
  exists err,
    unregister spec_ref exchange_url device_id device_token db net
    = (Some (Some err), net).
Proof.
  unfold UnregisterMicroserviceExchange.
  intros [-> | [err ->]]; eexists; reflexivity.
Qed.

(** X22: when the registry holds no microservice for the node, nothing is
    put: the call returns nil after the GET that was answered. *)
Theorem UnregisterMicroserviceExchange_nothing_registered
    (spec_ref exchange_url device_id device_token : string) (db : DB)
    (net : exchange.Net) (dev : ExchangeDevice)
    (tps rest : list exchange.reply) (devs : gmap string exchange.Device)
    (eDevice : exchange.Device) :
  FindExchangeDevice db = inr (Some dev) ->
  exchange.script net = tps ++ exchange.Answer devs :: rest ->
  forallb is_transport tps = true ->
  devs !! device_id = Some eDevice ->
  exchange.RegisteredMicroservices eDevice = [] ->
  unregister spec_ref exchange_url device_id device_token db net
  = (Some None,
     {| exchange.script := rest;
        exchange.sent :=
          exchange.sent net
          ++ replicate (S (length tps))
               (GET device_id device_token exchange_url);
        exchange.slept := exchange.slept net + 10 * Z.of_nat (length tps) |}).
Proof.
  intros Hfind Hscript Htps Hdev Hnone.
  unfold UnregisterMicroserviceExchange, getExchangeDevice.
  rewrite Hfind, Hscript, get_device_transport by exact Htps.
  cbn [get_device]. rewrite Hdev, Hnone, replicate_then_snoc. reflexivity.
Qed.

(** X23: when the registry holds microservices for the node, they are put
    back without the ones of the url [spec_ref], the others in their order,
    and also when none has that url; the PUT goes to the address of the
    GET, is sent again after every transport error, and the call returns
    the error of the PUT, if any, as it is. *)
Theorem UnregisterMicroserviceExchange_put
    (spec_ref exchange_url device_id device_token : string) (db : DB)
    (net : exchange.Net) (dev : ExchangeDevice)
    (tps1 tps2 rest : list exchange.reply)
    (devs : gmap string exchange.Device) (eDevice : exchange.Device)
    (rep : exchange.reply) :
  FindExchangeDevice db = inr (Some dev) ->
  exchange.script net = tps1 ++ exchange.Answer devs :: tps2 ++ rep :: rest ->
  forallb is_transport tps1 = true ->
  forallb is_transport tps2 = true ->
  is_transport rep = false ->
  devs !! device_id = Some eDevice ->
  exchange.RegisteredMicroservices eDevice <> [] ->
  exists pdr,
    unregister spec_ref exchange_url device_id device_token db net
    = (Some match rep with
            | exchange.Fatal err => Some err
            | _ => None
            end,
       {| exchange.script := rest;
          exchange.sent :=
            (exchange.sent net
             ++ replicate (S (length tps1))
                  (GET device_id device_token exchange_url))
            ++ replicate (S (length tps2))
                 (PUT device_id device_token exchange_url pdr);
          exchange.slept :=
            exchange.slept net + 10 * Z.of_nat (length tps1)
            + 10 * Z.of_nat (length tps2) |})
    /\ exchange.PDR_Token pdr
       = exchange.PDR_Token (CreateDevicePut device_token (ED_Name dev))
    /\ exchange.PDR_Name pdr
       = exchange.PDR_Name (CreateDevicePut device_token (ED_Name dev))
    /\ exchange.PDR_RegisteredMicroservices pdr
       = List.filter (fun ms => negb (String.eqb (exchange.Url ms) spec_ref))
           (exchange.RegisteredMicroservices eDevice)
    /\ forall ms,
         In ms (exchange.PDR_RegisteredMicroservices pdr) <->
         In ms (exchange.RegisteredMicroservices eDevice)
         /\ exchange.Url ms <> spec_ref.
Proof.
  intros Hfind Hscript Htps1 Htps2 Hrep Hdev Hsome.
  unfold UnregisterMicroserviceExchange, getExchangeDevice.
  rewrite Hfind, Hscript, get_device_transport by exact Htps1.
  cbn [get_device]. rewrite Hdev, replicate_then_snoc.
  destruct (exchange.RegisteredMicroservices eDevice) as [|ms0 mss] eqn:Hms;
    [congruence|].
  cbn [exchange.script exchange.sent exchange.slept].
  rewrite put_device_transport by exact Htps2.
  eexists. split; [|split; [|split; [|split]]].
  - destruct rep as [err|tpErr|answer]; [|discriminate Hrep|];
      cbn [put_device]; rewrite replicate_then_snoc; reflexivity.
  - reflexivity.
  - reflexivity.
  - reflexivity.
  - intros ms. cbn [exchange.PDR_RegisteredMicroservices].
    rewrite filter_In, negb_true_iff, String.eqb_neq. reflexivity.
Qed.

End RegistryProperties.

Lemma getExchangeDevice_first_reply_witness :
  scenario.looked_up
    (scenario.network
       [scenario.timeout_reply; scenario.timeout_reply;
        scenario.answer [scenario.gps_ms]; scenario.timeout_reply])
  = (Some (inr (scenario.node [scenario.gps_ms])),
     {| exchange.script := [scenario.timeout_reply];
        exchange.sent :=
          [scenario.get_request; scenario.get_request; scenario.get_request];
        exchange.slept := 20 |}).
Proof.
  destruct (getExchangeDevice_first_reply scenario.org_of scenario.id_of
              "IBM/node1" "token" "https://exchange/v1/"
              (scenario.network
                 [scenario.timeout_reply; scenario.timeout_reply;
                  scenario.answer [scenario.gps_ms]; scenario.timeout_reply])
              [scenario.timeout_reply; scenario.timeout_reply]
              [scenario.timeout_reply] (scenario.answer [scenario.gps_ms])
              eq_refl eq_refl eq_refl)
    as (result & Hrun & _ & Hanswer & _).
  unfold scenario.looked_up. rewrite Hrun.
  rewrite (Hanswer _ (scenario.node [scenario.gps_ms]) eq_refl eq_refl).
  reflexivity.
Defined.

Lemma getExchangeDevice_keeps_trying_witness :
  scenario.looked_up
    (scenario.network [scenario.timeout_reply; scenario.timeout_reply])
  = (None,
     {| exchange.script := [];
        exchange.sent :=
          [scenario.get_request; scenario.get_request; scenario.get_request];
        exchange.slept := 20 |}).
Proof.
  apply (getExchangeDevice_keeps_trying scenario.org_of scenario.id_of
           "IBM/node1" "token" "https://exchange/v1/"
           (scenario.network [scenario.timeout_reply; scenario.timeout_reply])).
  reflexivity.
Defined.

Lemma UnregisterMicroserviceExchange_no_device_witness :
  exists err,
    scenario.unregistered scenario.not_registered
      (scenario.network [scenario.answer [scenario.gps_ms]])
    = (Some (Some err),
       scenario.network [scenario.answer [scenario.gps_ms]]).
Proof.
  apply (UnregisterMicroserviceExchange_no_device scenario.org_of
           scenario.id_of scenario.device_put scenario.not_registered
           scenario.gps "https://exchange/v1/" "IBM/node1" "token"
           (scenario.store [] [] [])
           (scenario.network [scenario.answer [scenario.gps_ms]])).
  left. reflexivity.
Defined.

Lemma UnregisterMicroserviceExchange_nothing_registered_witness :
  scenario.unregistered scenario.registered
    (scenario.network [scenario.timeout_reply; scenario.answer []])
  = (Some None,
     {| exchange.script := [];
        exchange.sent := [scenario.get_request; scenario.get_request];
        exchange.slept := 10 |}).
Proof.
  apply (UnregisterMicroserviceExchange_nothing_registered scenario.org_of
           scenario.id_of scenario.device_put scenario.registered
           scenario.gps "https://exchange/v1/" "IBM/node1" "token"
           (scenario.store [] [] [])
           (scenario.network [scenario.timeout_reply; scenario.answer []])
           {| ED_Name := "node1" |} [scenario.timeout_reply] []
           {[ "IBM/node1" := scenario.node [] ]} (scenario.node []));
    reflexivity.
Defined.

Lemma UnregisterMicroserviceExchange_put_witness :
  scenario.unregistered scenario.registered
    (scenario.network
       [scenario.answer [scenario.netspeed_ms; scenario.gps_ms];
        scenario.timeout_reply; scenario.answer []])
  = (Some None,
     {| exchange.script := [];
        exchange.sent :=
          [scenario.get_request; scenario.put_request [scenario.netspeed_ms];
           scenario.put_request [scenario.netspeed_ms]];
        exchange.slept := 10 |}).
Proof.
  destruct (UnregisterMicroserviceExchange_put scenario.org_of
              scenario.id_of scenario.device_put scenario.registered
              scenario.gps "https://exchange/v1/" "IBM/node1" "token"
              (scenario.store [] [] [])
              (scenario.network
                 [scenario.answer [scenario.netspeed_ms; scenario.gps_ms];
                  scenario.timeout_reply; scenario.answer []])
              {| ED_Name := "node1" |} [] [scenario.timeout_reply] []
              {[ "IBM/node1" :=
                   scenario.node [scenario.netspeed_ms; scenario.gps_ms] ]}
              (scenario.node [scenario.netspeed_ms; scenario.gps_ms])
              (scenario.answer [])
              eq_refl eq_refl eq_refl eq_refl eq_refl eq_refl
              ltac:(discriminate))
    as (pdr & Hrun & Htoken & Hname & Hput & _).
  unfold scenario.unregistered. rewrite Hrun.
  destruct pdr as [token name mss]. cbn in Htoken, Hname, Hput.
  subst token name mss. reflexivity.
Defined.

(** ** Resolving again after an upgrade *)

Section ResolvedTwice.

Variable ToLower : string -> string.
Variable json_Marshal : exchange.MicroserviceDefinition -> error + list byte.
Variable sha3_Sum256 : list byte -> list byte.
Variable Version_Expression : Type.
Variable Version_Expression_Factory : string -> error + Version_Expression.
Variable Get_expression : Version_Expression -> string.
Variable HTTPClientFactory : Type.
Variable GetMicroservice :
  HTTPClientFactory -> string -> string -> string -> string ->
  string -> string -> string -> error + exchange.MicroserviceDefinition.

Variable httpClientFactory : HTTPClientFactory.
Variables exchURL deviceId deviceToken : string.

Local Abbreviation resolver msdef :=
  (GetUpgradeMicroserviceDef ToLower json_Marshal sha3_Sum256
     Version_Expression Version_Expression_Factory Get_expression
     HTTPClientFactory GetMicroservice msdef httpClientFactory exchURL
     deviceId deviceToken).

Local Abbreviation offers msdef :=
  (candidate ToLower json_Marshal sha3_Sum256 Version_Expression
     Version_Expression_Factory Get_expression HTTPClientFactory
     GetMicroservice msdef httpClientFactory exchURL deviceId deviceToken).

(** X24: the resolver is idempotent: when the registry offers a definition
    and the resolver returns the candidate for it, then resolving for that
    candidate, with the registry still offering the same definition,
    returns (nil, nil) on every store. *)
Theorem GetUpgradeMicroserviceDef_idempotent
    (msdef new : MicroserviceDefinition)
    (e_msdef : exchange.MicroserviceDefinition)
    (new_msdef again : MicroserviceDefinition) (err : option error)
    (db db' : DB) :
  offers msdef e_msdef new_msdef ->
  fst (resolver msdef db) = (Some new, err) ->
  offers new e_msdef again ->
  fst (resolver new db') = (None, None).
Proof.
  intros Hfirst Hreturned Hsecond.
  assert (Hnew : new = copy_attributes msdef new_msdef).
  { rewrite (GetUpgradeMicroserviceDef_candidate ToLower json_Marshal
               sha3_Sum256 Version_Expression Version_Expression_Factory
               Get_expression HTTPClientFactory GetMicroservice msdef
               httpClientFactory exchURL deviceId deviceToken e_msdef
               new_msdef db Hfirst) in Hreturned.
    destruct (_ <? 0); [discriminate|].
    destruct (_ && bytes.Equal _ _); [discriminate|].
    destruct (negb _).
    - destruct (fst _) as [?|msdefs]; [discriminate|].
      destruct (existsb _ msdefs); [discriminate|].
      injection Hreturned as <- _. reflexivity.
    - injection Hreturned as <- _. reflexivity. }
  rewrite (GetUpgradeMicroserviceDef_candidate ToLower json_Marshal
             sha3_Sum256 Version_Expression Version_Expression_Factory
             Get_expression HTTPClientFactory GetMicroservice new
             httpClientFactory exchURL deviceId deviceToken e_msdef
             again db' Hsecond).
  destruct Hfirst as (_ & _ & _ & Hconvert1).
  destruct Hsecond as (_ & _ & _ & Hconvert2).
  apply ConvertToPersistent_inr in Hconvert1, Hconvert2.
  destruct Hconvert1 as (serial1 & Hserial1 & Hhash1 & _ & Hversion1 & _).
  destruct Hconvert2 as (serial2 & Hserial2 & Hhash2 & _).
  assert (Hversion : Version new = exchange.Version e_msdef)
    by (rewrite Hnew; exact Hversion1).
  assert (Hhash : MetadataHash new = MetadataHash again).
  { rewrite Hnew. cbn [copy_attributes MetadataHash].
    rewrite Hhash1, Hhash2. congruence. }
  rewrite Hversion.
  rewrite (proj2 (strings_Compare_eq _ _) eq_refl).
  rewrite (proj2 (bytes_Equal_eq _ _) Hhash). reflexivity.
Qed.

End ResolvedTwice.

Lemma GetUpgradeMicroserviceDef_idempotent_witness :
  exists new,
    fst (scenario.resolve "2.0.0" scenario.installed
           (scenario.store [] [] [])) = (Some new, None)
    /\ fst (scenario.resolve "2.0.0" new (scenario.store [] [] []))
       = (None, None).
Proof.
  eexists. split; [reflexivity|].
  eapply (GetUpgradeMicroserviceDef_idempotent scenario.lower scenario.spell
            scenario.keep string scenario.accept (fun vExp => vExp) unit
            (scenario.registry "2.0.0") tt "https://exchange/v1/"
            "IBM/node1" "token" scenario.installed _
            (scenario.offered "2.0.0") _ _ None (scenario.store [] [] [])
            (scenario.store [] [] [])).
  - exists "[1.0.0,INFINITY)". split; [reflexivity|]. split; reflexivity.
  - reflexivity.
  - exists "[1.0.0,INFINITY)". split; [reflexivity|]. split; reflexivity.
Defined.

(** ** The override of a common property that is lost *)

(** Only a compute attribute writes to [props] inside the loop, and only
    under "cpus" and "ram". *)
Lemma handle_attributes_props (attributes : list Attribute)
    (vars vars' : variables) (key : string) :
  key <> "cpus" -> key <> "ram" ->
  handle_attributes attributes vars = Returns vars' ->
  props vars' !! key = props vars !! key.
Proof.
  intros Hcpus Hram. revert vars.
  induction attributes as [|attr rest IH]; intros vars; cbn.
  - intros [= <-]. reflexivity.
  - destruct attr as [m c r|m a|m p|m t u n|m x|m mp|m agpl|m k]; cbn;
      try (intros H; rewrite (IH _ H); reflexivity).
    + intros H. rewrite (IH _ H). cbn.
      rewrite !lookup_insert_ne by congruence. reflexivity.
    + destruct agpl; try discriminate.
      intros H. rewrite (IH _ H). reflexivity.
Qed.

Lemma add_properties_lookup_None (vars : variables) (key : string) :
  properties vars !! key = None ->
  props (add_properties vars) !! key = props vars !! key.
Proof.
  intros Hkey. unfold add_properties.
  destruct (0 <? Z.of_nat (size (properties vars))); [|reflexivity].
  cbn. rewrite fold_insert_union. apply lookup_union_r, Hkey.
Qed.

Section LostOverride.

Variable AgreementProtocol : Type.
Variable ConvertToAgreementProtocolList :
  list iface -> error + list AgreementProtocol.

Variable msdef : MicroserviceDefinition.
Variables policyPath deviceOrg : string.

Local Abbreviation compiler :=
  (compile AgreementProtocol ConvertToAgreementProtocolList msdef policyPath
     deviceOrg).

(** C7, where the source departs from it: when the last specific property
    attribute does not have a key that the last common property attribute
    has, the property bag handed to [policy.GeneratePolicy] holds the common
    value of the key, also when a specific property attribute before the
    last one sets the key: that attribute's mappings are dropped whole, and
    the specific value does not override the common one. *)
Theorem compile_specific_property_lost (orig : list Attribute)
    (common_before common_after specific_before specific_after
     : list Attribute)
    (common_meta specific_meta : AttributeMeta)
    (common_mappings specific_mappings : gmap string iface)
    (key : string) (val : iface)
    (call : GeneratePolicy_call AgreementProtocol) :
  divide orig [] []
  = (common_before ++ PropertyAttributes common_meta common_mappings
       :: common_after,
     specific_before ++ PropertyAttributes specific_meta specific_mappings
       :: specific_after) ->
  (forall attr, In attr common_after -> is_property attr = false) ->
  (forall attr, In attr specific_after -> is_property attr = false) ->
  common_mappings !! key = Some val ->
  specific_mappings !! key = None ->
  key <> "cpus" -> key <> "ram" ->
  compiler orig = Returns (inr call) ->
  arg_props AgreementProtocol call !! key = Some val.
Proof.
  intros Hdivide Hcommon_last Hspecific_last Hkey Hnone Hcpus Hram Hcompile.
  rewrite divide_filter in Hdivide. cbn [app] in Hdivide.
  injection Hdivide as Hcommon_group Hspecific_group.
  apply compile_variables in Hcompile.
  destruct Hcompile as (vars1 & vars2 & Hcommon & Hspecific & -> & _).
  rewrite Hcommon_group in Hcommon. rewrite Hspecific_group in Hspecific.
  assert (Hafter_common : props (add_properties vars1) !! key = Some val).
  { apply add_properties_lookup.
    rewrite (handle_attributes_last_property _ _ _ _ _ _ Hcommon_last
               Hcommon).
    exact Hkey. }
  rewrite add_properties_lookup_None.
  - rewrite (handle_attributes_props _ _ _ key Hcpus Hram Hspecific).
    exact Hafter_common.
  - rewrite (handle_attributes_last_property _ _ _ _ _ _ Hspecific_last
               Hspecific).
    exact Hnone.
Qed.

End LostOverride.

Lemma compile_specific_property_lost_witness :
  scoped scenario.region_for_gps = true
  /\ exists call,
       scenario.compiled scenario.installed
         [scenario.region_everywhere; scenario.region_for_gps;
          scenario.zone_for_gps]
       = Returns (inr call)
       /\ arg_props string call !! "region" = Some (iface_string "us").
Proof.
  split; [reflexivity|].
  eexists. split; [reflexivity|].
  eapply (compile_specific_property_lost string scenario.protocol_names
            scenario.installed "/var/horizon/policy.d/" "IBM"
            [scenario.region_everywhere; scenario.region_for_gps;
             scenario.zone_for_gps]
            [] [] [scenario.region_for_gps] [] scenario.everywhere
            scenario.for_gps {[ "region" := iface_string "us" ]}
            {[ "zone" := iface_string "1" ]} "region" (iface_string "us")).
  - reflexivity.
  - intros attr [].
  - intros attr [].
  - reflexivity.
  - reflexivity.
  - discriminate.
  - discriminate.
  - reflexivity.
Defined.
